(** * dash_proxy: live timing and segment mapping of the DASH live source simulator

    A shallow embedding of [dashlivesim/dashlib/dash_proxy.py] (Python 2) and
    the properties of its timing arithmetic.

    Conventions of the embedding.
    - Python integers are [Z]; [divmod], [/] on integers and [%] are the
      flooring operations, which [Z.div] and [Z.modulo] are as well; a zero
      divisor raises [ZeroDivisionError].
    - The wall clock [now] is a float in the source; it is a rational [Q]
      here, the value of the double ([nan] and the infinities are not
      represented).  The same holds for [availability_time_offset_in_s].
      Where the source computes with floats, the result is rounded to the
      nearest double ([Py.float_round]); an integer too large for a double
      raises [OverflowError].  The distance in the text of an error message
      is the float that the source formats with one decimal.
    - Exceptions that the source does not catch are results [Raise e].
    - Calls to the collaborators that are not part of this file
      ([InitLiveFilter], [MediaSegmentFilter], [segmentmuxer],
      [mpdprocessor], the request log, [time.sleep]) are recorded, in order,
      in a list of events; what they return is kept symbolic. *)

From Stdlib Require Import ZArith QArith Qabs List String Ascii Bool Lia.
Import ListNotations.
Local Open Scope Z_scope.

(** ** Python primitives *)

Module Py.

Inductive exn : Type :=
| ZeroDivisionError
| IndexError
| ValueError
| TypeError
| OverflowError.

Inductive result (A : Type) : Type :=
| Ok (a : A)
| Raise (e : exn).

Arguments Ok {A} a.
Arguments Raise {A} e.

Definition bind {A B : Type} (m : result A) (f : A -> result B) : result B :=
  match m with
  | Ok a => f a
  | Raise e => Raise e
  end.

(** [divmod(a, b)] on integers. *)
Definition divmod (a b : Z) : result (Z * Z) :=
  if b =? 0 then Raise ZeroDivisionError else Ok (a / b, a mod b).

(** [a / b] on integers (Python 2). *)
Definition floordiv (a b : Z) : result Z :=
  if b =? 0 then Raise ZeroDivisionError else Ok (a / b).

(** [int(x)] on a float: truncation towards zero. *)
Definition int_of_float (x : Q) : Z := Z.quot (Qnum x) (Z.pos (Qden x)).

(** [round(x)] of Python 2: to the nearest integer, ties away from zero. *)
Definition round_half_away (x : Q) : Z :=
  let n := Qnum x in
  let d := Z.pos (Qden x) in
  Z.sgn n * ((2 * Z.abs n + d) / (2 * d)).

Definition Qlt_bool (a b : Q) : bool := negb (Qle_bool b a).

(** [range(n)] *)
Definition range (n : Z) : list Z := map Z.of_nat (seq 0 (Z.to_nat n)).

(** [l[0]] *)
Definition first {A : Type} (l : list A) : result A :=
  match l with
  | [] => Raise IndexError
  | x :: _ => Ok x
  end.

(** [l[1]] *)
Definition second {A : Type} (l : list A) : result A :=
  match l with
  | _ :: x :: _ => Ok x
  | _ => Raise IndexError
  end.

(** [l[-1]] *)
Fixpoint last_item {A : Type} (l : list A) : result A :=
  match l with
  | [] => Raise IndexError
  | [x] => Ok x
  | _ :: r => last_item r
  end.

(** [l[-3:]] *)
Definition last3 {A : Type} (l : list A) : list A :=
  skipn (List.length l - 3)%nat l.

(** *** Strings *)

(** [s.split(c)] for a one-character separator. *)
Fixpoint split (c : ascii) (s : string) : list string :=
  match s with
  | EmptyString => [EmptyString]
  | String a r =>
      if Ascii.eqb a c then EmptyString :: split c r
      else match split c r with
           | [] => [String a EmptyString]
           | w :: ws => String a w :: ws
           end
  end.

(** [sep.join(l)] *)
Fixpoint join (sep : string) (l : list string) : string :=
  match l with
  | [] => EmptyString
  | [w] => w
  | w :: r => (w ++ sep ++ join sep r)%string
  end.

(** [s[1:]] *)
Definition tail (s : string) : string :=
  match s with
  | EmptyString => EmptyString
  | String _ r => r
  end.

(** [s[0]] *)
Definition head (s : string) : result ascii :=
  match s with
  | EmptyString => Raise IndexError
  | String a _ => Ok a
  end.

Definition digit_of (a : ascii) : option Z :=
  let n := Z.of_nat (nat_of_ascii a) in
  if (48 <=? n) && (n <=? 57) then Some (n - 48) else None.

(** The blank characters of C's [isspace]: the space and the characters 9
    to 13. *)
Definition is_space (a : ascii) : bool :=
  let n := Z.of_nat (nat_of_ascii a) in
  (n =? 32) || ((9 <=? n) && (n <=? 13)).

Fixpoint lstrip (s : string) : string :=
  match s with
  | EmptyString => EmptyString
  | String a r => if is_space a then lstrip r else s
  end.

(** The digits at the start of a string: their value and what follows
    them. *)
Fixpoint leading_digits (acc : Z) (s : string) : Z * string :=
  match s with
  | EmptyString => (acc, EmptyString)
  | String a r =>
      match digit_of a with
      | Some d => leading_digits (10 * acc + d) r
      | None => (acc, s)
      end
  end.

(** Blanks, one digit or more, blanks. *)
Definition unsigned_literal (s : string) : option Z :=
  match lstrip s with
  | EmptyString => None
  | String a _ as body =>
      match digit_of a with
      | None => None
      | Some _ =>
          let (n, rest) := leading_digits 0 body in
          match lstrip rest with
          | EmptyString => Some n
          | String _ _ => None
          end
      end
  end.

(** [int(s)] on a string, as CPython 2.7 reads it ([PyInt_FromString] with
    [PyOS_strtol]): blanks, an optional sign, blanks again, one decimal digit
    or more, blanks.  Anything else is a [ValueError]. *)
Definition int_of_string (s : string) : result Z :=
  let signed :=
    match lstrip s with
    | String "-"%char r => option_map Z.opp (unsigned_literal r)
    | String "+"%char r => unsigned_literal r
    | body => unsigned_literal body
    end in
  match signed with
  | Some n => Ok n
  | None => Raise ValueError
  end.

(** [int(ceil(60.0 / float(n)))].  For every non-zero integer that converts
    to a finite float the quotient is never rounded onto or across an
    integer, so the value is the exact ceiling of 60 / n.  [float(n)]
    overflows from 2^1024 - 2^970 on. *)
Definition float_max_bound : Z := 2 ^ 1024 - 2 ^ 970.

Definition ceil_60_over (n : Z) : result Z :=
  if float_max_bound <=? Z.abs n then Raise OverflowError
  else if n =? 0 then Raise ZeroDivisionError
  else Ok (- ((- 60) / n)).

(** *** Floats

    A double is the rational it stands for.  The results of the float
    operations are rounded to the nearest double, ties to the one with an
    even significand: 53 significant bits, the last place not below
    2^-1074.  The exponent is not bounded from above, as the infinities are
    not represented. *)

(** floor(log2(n / d)) *)
Definition floor_log2 (n d : positive) : Z :=
  let e := Z.log2 (Z.pos n) - Z.log2 (Z.pos d) in
  if Z.pos n * 2 ^ Z.max 0 (- e) <? Z.pos d * 2 ^ Z.max 0 e then e - 1 else e.

(** n / d to the nearest integer, ties to the even one, for [n >= 0] and
    [d > 0]. *)
Definition round_half_even (n d : Z) : Z :=
  let q := n / d in
  match 2 * (n mod d) ?= d with
  | Lt => q
  | Gt => q + 1
  | Eq => if Z.even q then q else q + 1
  end.

(** The double nearest to n / d: m * 2^e with [e] the exponent of the last
    place. *)
Definition nearest_double (n d : positive) : Q :=
  let e := Z.max (floor_log2 n d - 52) (-1074) in
  let m := round_half_even (Z.pos n * 2 ^ Z.max 0 (- e)) (Z.pos d * 2 ^ Z.max 0 e) in
  Qmake (m * 2 ^ Z.max 0 e) (Z.to_pos (2 ^ Z.max 0 (- e))).

Definition float_round (x : Q) : Q :=
  Qred match Qnum x with
       | Z0 => 0
       | Z.pos n => nearest_double n (Qden x)
       | Z.neg n => - nearest_double n (Qden x)
       end.

(** [float(n)] and the conversion of an integer operand of a float
    operation. *)
Definition float_of_int (n : Z) : result Q :=
  if float_max_bound <=? Z.abs n then Raise OverflowError
  else Ok (float_round (inject_Z n)).

(** [a - b] and [a / b] on floats, [b] not zero. *)
Definition float_sub (a b : Q) : Q := float_round (a - b).
Definition float_div (a b : Q) : Q := float_round (a / b).

(** Does [float(text)] give an infinity for a text that denotes [x]? *)
Definition float_is_infinite (x : Q) : bool :=
  Qle_bool (inject_Z float_max_bound) (Qabs x).

(** A number of Python: an [int] or a [float].  A comparison with a float
    is exact; an operation with a float converts the [int]. *)
Inductive number : Type :=
| Int (n : Z)
| Float (x : Q).

Definition number_value (a : number) : Q :=
  match a with
  | Int n => inject_Z n
  | Float x => x
  end.

Definition as_float (a : number) : result Q :=
  match a with
  | Int n => float_of_int n
  | Float x => Ok x
  end.

End Py.

Import Py.

Notation "x <- m ;; k" := (Py.bind m (fun x => k))
  (at level 61, m at next level, right associativity, only parsing).
Notation "' p <- m ;; k" := (Py.bind m (fun x => match x with p => k end))
  (at level 61, p pattern, m at next level, right associativity, only parsing).

(** ** Data model *)

(** One entry of [cfg.vod_infos]. *)
Record VodInfo : Type := mkVodInfo {
  wrap_seconds : Z;
  seg_duration : Z;
  first_segment_in_loop : Z;
  video_total_duration : Z;   (* media_data['video']['total_duration'] *)
  video_timescale : Z         (* media_data['video']['timescale'] *)
}.

(** One entry of [cfg.reps]. *)
Record Rep : Type := mkRep {
  rep_id : string;
  rep_timescale : Z;
  content_type : string
}.

(** A file name as [splitext] and the tests of [process_media_segment] see
    it: the stem is a text that [int] reads as a number ("17"), the time
    marker followed by a text that [float] reads as a number ("t1234"),
    empty, or any other word, on which [int] or [float] raises
    [ValueError].  The stems "tnan" and "tinf" are not represented. *)
Inductive Stem : Type :=
| NumberStem (n : Z)
| TimeStem (t : Q)
| WordStem (w : string)
| EmptyStem.

Record FileName : Type := mkFileName {
  seg_base : Stem;
  seg_ext : string
}.

(** The configuration object built by [ConfigProcessor]; only the attributes
    that [dash_proxy] reads. *)
Record Config : Type := mkConfig {
  ext : string;
  content_name : string;
  rel_path : string;
  filenames : list FileName;
  repId : string;
  reps : list Rep;
  vod_infos : list VodInfo;
  availability_start_time_in_s : Z;
  availability_time_offset_in_s : Q;
  availability_end_time : option Z;
  init_seg_avail_offset : Z;
  start_nr : Z;
  start_from_ast : Z;
  last_segment_numbers : list Z;
  initial_durations : list Z;
  loop_duration : Z;
  multi_url : list string;
  scte35_per_minute : Z
}.

(** Assignment of the three attributes that [sort_by_period] changes. *)
Definition with_rotation (cfg : Config) (vs : list VodInfo) (fs : list FileName)
    (sfa : Z) : Config :=
  mkConfig (ext cfg) (content_name cfg) (rel_path cfg) fs (repId cfg) (reps cfg) vs
    (availability_start_time_in_s cfg) (availability_time_offset_in_s cfg)
    (availability_end_time cfg) (init_seg_avail_offset cfg) (start_nr cfg) sfa
    (last_segment_numbers cfg) (initial_durations cfg) (loop_duration cfg)
    (multi_url cfg) (scte35_per_minute cfg).

(** ** sort_by_period *)

(** The first loop: [total] accumulates the wrap durations. *)
Definition total_wrap (l : list VodInfo) : Z :=
  fold_left (fun total vod_info => total + wrap_seconds vod_info) l 0.

(** The second loop, up to its [break]: does some entry satisfy
    [time > prog + vod_info.seg_duration]? *)
Fixpoint rotation_due (time prog : Z) (l : list VodInfo) : bool :=
  match l with
  | [] => false
  | vod_info :: rest =>
      let prog := prog + wrap_seconds vod_info in
      if time >? prog + seg_duration vod_info then true
      else rotation_due time prog rest
  end.

(** Body of the [if] of the second loop: the first entry goes to the end. *)
Definition rotate_forward (cfg : Config) : result Config :=
  match vod_infos cfg, filenames cfg with
  | v0 :: vs, f0 :: fs =>
      Ok (with_rotation cfg (vs ++ [v0]) (fs ++ [f0])
            (start_from_ast cfg + wrap_seconds v0))
  | _, _ => Raise IndexError
  end.

(** The [if] after the loop: the last entry is put in front as well. *)
Definition prepend_last (cfg : Config) (now : Z) : result Config :=
  v0 <- first (vod_infos cfg) ;;
  if now - availability_start_time_in_s cfg >? wrap_seconds v0 then
    first_vod_infos <- last_item (vod_infos cfg) ;;
    first_filename <- last_item (filenames cfg) ;;
    Ok (with_rotation cfg (first_vod_infos :: vod_infos cfg)
          (first_filename :: filenames cfg)
          (start_from_ast cfg - wrap_seconds first_vod_infos))
  else Ok cfg.

Definition sort_by_period (cfg : Config) (now : Z) : result Config :=
  let total := total_wrap (vod_infos cfg) in
  let diff := now - availability_start_time_in_s cfg in
  '(loops, time) <- divmod diff total ;;
  cfg1 <- (if rotation_due time 0 (vod_infos cfg) then rotate_forward cfg
           else Ok cfg) ;;
  cfg2 <- prepend_last cfg1 now ;;
  Ok (with_rotation cfg2 (vod_infos cfg2) (filenames cfg2)
        (start_from_ast cfg2 + loops * total)).

(** ** Responses, collaborator calls and the request object *)

(** A path built by ["%s/%s/..." % (...)] or [os.path.join]: the values of
    the directory slots, in order, and the file name. *)
Record Path : Type := mkPath {
  dirs : list string;
  file : FileName
}.

(** The arguments of one [MediaSegmentFilter(...)] construction. *)
Record FilterCall : Type := mkFilterCall {
  media_seg_file : Path;
  fc_seg_nr : Z;
  fc_seg_duration : Z;
  fc_offset_at_loop_start : Z;
  fc_lmsg : bool;
  fc_timescale : Z;
  fc_scte35_per_minute : Z;
  fc_rel_path : string;
  fc_is_ttml : bool
}.

(** One entry of the list returned by [generate_period_data]; the numbers
    that the source formats into strings are kept as numbers. *)
Record PeriodData : Type := mkPeriodData {
  pd_id : Z;                      (* "p%d" % start *)
  periodDuration : Z;             (* "PT%dS" % prd_duration *)
  pd_start : Z;                   (* "PT%dS" % start *)
  startNumber : Z;                (* str(start_number) *)
  duration : Z;                   (* seg_dur *)
  presentationTimeOffset : Z;     (* "%d" % (start * timescale) *)
  start_s : Z
}.

(** The texts given to [error_response]. *)
Inductive Message : Type :=
| TooEarlyInit (name : FileName) (diff : Q)
    (* "Request for %s was %.1fs too early" *)
| TooEarlyMedia (name : FileName) (diff : Q)
    (* "Request %s before first seg AST. %.1fs too early." *)
| TooLateMedia (name : FileName) (diff : Q)
    (* "Request for %s after AET. %.1fs too late" *)
| TooEarlySegmentNumber (seg_nr seg_start_nr : Z)
    (* "Request for segment %d before first %d" *)
| BeyondLastSegment (seg_nr very_last_segment : Z)
    (* "Request for segment %d beyond last (%d)" *)
| FaultInjected (now : Z)
    (* "BaseURL server down at %d" *)
| InvalidRepresentationCount (nr_reps : Z).
    (* "Bad nr of representations: %d" *)

Inductive Response : Type :=
| ErrorResponse (msg : Message)           (* {'ok': False, 'pl': msg + "\n"} *)
| InitData (init_file : Path)             (* InitLiveFilter(init_file).filter() *)
| MuxedInits (init1 init2 : Path)         (* MultiplexInits(..).construct_muxed() *)
| MediaData (seg : FilterCall)            (* MediaSegmentFilter(..).filter() *)
| MuxedMedia (seg1 seg2 : FilterCall)     (* MultiplexMediaSegments(..).mux_on_sample_level() *)
| MpdXml (mpd_filenames : list Path) (period_data : list PeriodData)
| UnknownFileExtension (e : string).      (* "Unknown file extension: %s" *)

Inductive Event : Type :=
| LogError (url_tail : list string) (msg : Message)
| InitLiveFilter_filter (init_file : Path)
| MultiplexInits_construct_muxed (init1 init2 : Path)
| MediaSegmentFilter_filter (seg : FilterCall)
| MultiplexMediaSegments_mux (seg1 seg2 : FilterCall)
| MpdProcessor_new (mpd_filenames : list Path)
| MpdProcessor_process (mpd_filenames : list Path) (period_data : list PeriodData)
| Sleep_500ms.

(** Computations that call collaborators: the events so far and the outcome. *)
Definition M (A : Type) : Type := (list Event * result A)%type.

Definition ret {A : Type} (a : A) : M A := ([], Ok a).
Definition lift {A : Type} (r : result A) : M A := ([], r).
Definition emit (ev : Event) : M unit := ([ev], Ok tt).

Definition mbind {A B : Type} (m : M A) (f : A -> M B) : M B :=
  match m with
  | (t, Ok a) => let (t', r) := f a in (t ++ t', r)
  | (t, Raise e) => (t, Raise e)
  end.

Notation "x <~ m ;; k" := (mbind m (fun x => k))
  (at level 61, m at next level, right associativity, only parsing).
Notation "' p <~ m ;; k" := (mbind m (fun x => match x with p => k end))
  (at level 61, p pattern, m at next level, right associativity, only parsing).

Definition events {A : Type} (m : M A) : list Event := fst m.
Definition outcome {A : Type} (m : M A) : result A := snd m.

(** The attributes of [DashProvider] that the timing code reads. *)
Record DashProvider : Type := mkDashProvider {
  url_parts : list string;
  content_dir : string;
  now_float : Q;
  now : Z;
  req : bool                      (* is there a request object to log to? *)
}.

Definition EXTRA_TIME_AFTER_END_IN_S : Z := 60.

(** [DashProvider.__init__], which reads [url_parts[0]] for the base URL. *)
Definition new_DashProvider (url_parts : list string) (content_dir : string)
    (now : Q) (req : bool) : result DashProvider :=
  _ <- first url_parts ;;
  Ok (mkDashProvider (List.tl url_parts) content_dir now (int_of_float now) req).

Definition error_response (self : DashProvider) (msg : Message) : M Response :=
  _ <~ (if req self then emit (LogError (last3 (url_parts self)) msg) else ret tt) ;;
  ret (ErrorResponse msg).

(** ** generate_period_data and generate_dynamic_mpd *)

Record BaseData : Type := mkBaseData {
  bd_timescale : Z;
  bd_start : Z;
  bd_duration : Z;
  bd_segDuration : Z;
  bd_startNumber : Z
}.

Fixpoint generate_period_data (base_data : list BaseData) : result (list PeriodData) :=
  match base_data with
  | [] => Ok []
  | data :: rest =>
      let start := bd_start data in
      let timescale := bd_timescale data in
      let seg_dur := bd_segDuration data in
      let prd_duration := bd_duration data in
      q <- floordiv start seg_dur ;;
      let start_number := bd_startNumber data + q in
      period_data <- generate_period_data rest ;;
      Ok (mkPeriodData start prd_duration start start_number seg_dur
            (start * timescale) start :: period_data)
  end.

(** The loop of [generate_dynamic_mpd] over [range(len(cfg.vod_infos))]. *)
Fixpoint build_base_data (start_nr start : Z) (vs : list VodInfo) (mpd_filenames : list Path)
    : result (list BaseData * list Path) :=
  match vs with
  | [] => Ok ([], [])
  | v :: vs' =>
      timeinseconds <- floordiv (video_total_duration v) (video_timescale v) ;;
      f <- first mpd_filenames ;;
      '(base_data, rebuilt_filenames) <-
         build_base_data start_nr (start + timeinseconds) vs' (List.tl mpd_filenames) ;;
      Ok (mkBaseData (video_timescale v) start timeinseconds (seg_duration v) start_nr
            :: base_data,
          f :: rebuilt_filenames)
  end.

(** The period part of [generate_dynamic_mpd].  The top-level fields of
    [mpd_data] are formatted by [timeformatconversions] from the data of
    [get_mpd_data]; they take no part in the period arithmetic and are left
    out.  The manifest processor is constructed on the file names before
    [generate_period_data] runs; [process] and [get_full_xml] follow it. *)
Definition generate_dynamic_mpd (cfg : Config) (mpd_filenames : list Path) : M Response :=
  '(base_data, rebuilt_filenames) <~
     lift (build_base_data (start_nr cfg) (start_from_ast cfg) (vod_infos cfg)
             mpd_filenames) ;;
  _ <~ emit (MpdProcessor_new rebuilt_filenames) ;;
  period_data <~ lift (generate_period_data base_data) ;;
  _ <~ emit (MpdProcessor_process rebuilt_filenames period_data) ;;
  ret (MpdXml rebuilt_filenames period_data).

(** ** process_init_segment *)

Definition process_init_segment (self : DashProvider) (cfg : Config) : M Response :=
  let nr_reps := Z.of_nat (List.length (reps cfg)) in
  if nr_reps =? 1 then
    f <~ lift (first (filenames cfg)) ;;
    let init_file :=
      mkPath [content_dir self; content_name cfg; rel_path cfg] f in
    _ <~ emit (InitLiveFilter_filter init_file) ;;
    ret (InitData init_file)
  else if nr_reps =? 2 then
    let com_path := join "/" (removelast (split "/" (rel_path cfg))) in
    r0 <~ lift (first (reps cfg)) ;;
    f <~ lift (first (filenames cfg)) ;;
    let init1 := mkPath [content_dir self; content_name cfg; com_path; rep_id r0] f in
    r1 <~ lift (second (reps cfg)) ;;
    let init2 := mkPath [content_dir self; content_name cfg; com_path; rep_id r1] f in
    _ <~ emit (MultiplexInits_construct_muxed init1 init2) ;;
    ret (MuxedInits init1 init2)
  else
    error_response self (InvalidRepresentationCount nr_reps).

(** ** process_media_segment *)

(** [filter_media_segment]; the assignment to [self.new_tfdt_value], which
    nothing in this file reads, is not kept. *)
Definition filter_media_segment (self : DashProvider) (cfg : Config) (rep : Rep)
    (rel_path : string) (vod_nr seg_nr : Z) (seg_ext : string)
    (offset_at_loop_start : Z) (lmsg : bool) : M FilterCall :=
  let media_seg_file :=
    mkPath [content_dir self; content_name cfg; rel_path]
      (mkFileName (NumberStem vod_nr) seg_ext) in
  let timescale := rep_timescale rep in
  let scte35_per_minute :=
    if String.eqb (content_type rep) "video" then scte35_per_minute cfg else 0 in
  let is_ttml := String.eqb (content_type rep) "subtitles" in
  v0 <~ lift (first (vod_infos cfg)) ;;
  let seg_filter :=
    mkFilterCall media_seg_file seg_nr (seg_duration v0) offset_at_loop_start lmsg
      timescale scte35_per_minute rel_path is_ttml in
  _ <~ emit (MediaSegmentFilter_filter seg_filter) ;;
  ret seg_filter.

Definition get_timescale (cfg : Config) : option Z :=
  option_map rep_timescale
    (find (fun rep => String.eqb (rep_id rep) (repId cfg)) (reps cfg)).

(** The segment number asked for, from the stem of the file name.  For a
    time stem it is [int(round(float(seg_base[1:]) / seg_dur / timescale))]:
    the number written after the marker becomes a double, each division
    converts its integer divisor and rounds its quotient, and an infinite
    [float(...)] makes [int] raise [OverflowError] in the end. *)
Definition requested_seg_nr (seg_base : Stem) (seg_dur : Z) (timescale : option Z)
    : result Z :=
  match seg_base with
  | EmptyStem => Raise IndexError
  | TimeStem t =>
      let seg_time := float_round t in
      d <- float_of_int seg_dur ;;
      if seg_dur =? 0 then Raise ZeroDivisionError
      else match timescale with
           | None => Raise TypeError
           | Some ts =>
               s <- float_of_int ts ;;
               if ts =? 0 then Raise ZeroDivisionError
               else if float_is_infinite t then Raise OverflowError
               else Ok (round_half_away (float_div (float_div seg_time d) s))
           end
  | NumberStem n => Ok n
  | WordStem _ => Raise ValueError
  end.

(** [cfg.start_nr == -1 and 1 or cfg.start_nr] *)
Definition seg_start_nr_of (cfg : Config) : Z :=
  if start_nr cfg =? -1 then 1 else start_nr cfg.

(** [seg_nr in cfg.last_segment_numbers] *)
Definition is_last_segment (seg_nr : Z) (cfg : Config) : bool :=
  existsb (Z.eqb seg_nr) (last_segment_numbers cfg).

(** The end of [process_media_segment], from [nr_reps = len(cfg.reps)] on. *)
Definition dispatch_media_segment (self : DashProvider) (cfg : Config)
    (vod_nr seg_nr : Z) (seg_ext : string) (offset_at_loop_start : Z) (lmsg : bool)
    : M Response :=
  let rel_path := rel_path cfg in
  let nr_reps := Z.of_nat (List.length (reps cfg)) in
  if nr_reps =? 1 then
    r0 <~ lift (first (reps cfg)) ;;
    seg_content <~ filter_media_segment self cfg r0 rel_path vod_nr seg_nr seg_ext
                     offset_at_loop_start lmsg ;;
    ret (MediaData seg_content)
  else
    let rel_path_parts := split "/" rel_path in
    let common_path_parts := removelast rel_path_parts in
    r0 <~ lift (first (reps cfg)) ;;
    let rel_path1 := join "/" (common_path_parts ++ [rep_id r0]) in
    r1 <~ lift (second (reps cfg)) ;;
    let rel_path2 := join "/" (common_path_parts ++ [rep_id r1]) in
    seg1 <~ filter_media_segment self cfg r0 rel_path1 vod_nr seg_nr seg_ext
              offset_at_loop_start lmsg ;;
    seg2 <~ filter_media_segment self cfg r1 rel_path2 vod_nr seg_nr seg_ext
              offset_at_loop_start lmsg ;;
    _ <~ emit (MultiplexMediaSegments_mux seg1 seg2) ;;
    ret (MuxedMedia seg1 seg2).

(** [process_media_segment(cfg, now_float)]; the source does not read
    [now_float]: the two tests on it are commented out. *)
Definition process_media_segment (self : DashProvider) (cfg : Config) (now_float : Q)
    : M Response :=
  v0 <~ lift (first (vod_infos cfg)) ;;
  let seg_dur := seg_duration v0 in
  seg_name <~ lift (first (filenames cfg)) ;;
  let timescale := get_timescale cfg in
  seg_nr <~ lift (requested_seg_nr (seg_base seg_name) seg_dur timescale) ;;
  let seg_start_nr := seg_start_nr_of cfg in
  if seg_nr <? seg_start_nr then
    error_response self (TooEarlySegmentNumber seg_nr seg_start_nr)
  else
    beyond <~ lift (match last_segment_numbers cfg with
                    | [] => Ok None
                    | _ =>
                        very_last_segment <- last_item (last_segment_numbers cfg) ;;
                        Ok (if seg_nr >? very_last_segment
                            then Some very_last_segment else None)
                    end) ;;
    match beyond with
    | Some very_last_segment =>
        error_response self (BeyondLastSegment seg_nr very_last_segment)
    | None =>
        let lmsg := is_last_segment seg_nr cfg in
        let seg_time := (seg_nr - seg_start_nr) * seg_dur
                        + availability_start_time_in_s cfg in
        let multiple_durations := initial_durations cfg in
        let loop_duration := loop_duration cfg in
        let diff := seg_time - availability_start_time_in_s cfg in
        '(loops, time) <~ lift (divmod diff loop_duration) ;;
        d0 <~ lift (first multiple_durations) ;;
        let last := if time >=? d0 then d0 else 0 in
        seg_nr_in_loop <~ lift (floordiv (time - last) seg_dur) ;;
        let offset_at_loop_start := loops * loop_duration + last in
        let vod_nr := seg_nr_in_loop + first_segment_in_loop v0 in
        dispatch_media_segment self cfg vod_nr seg_nr (seg_ext seg_name)
          offset_at_loop_start lmsg
    end.

(** ** parse_url *)

(** The [for i in range(num_loop)] of the "u"/"d" case, up to its [break]. *)
Fixpoint down_in_up_down (total_dur dur1 now_mod_60 : Z) (indices : list Z) : bool :=
  match indices with
  | [] => false
  | i :: rest =>
      if (i * total_dur + dur1 <? now_mod_60) && (now_mod_60 <=? (i + 1) * total_dur)
      then true
      else down_in_up_down total_dur dur1 now_mod_60 rest
  end.

(** The [for i in range(num_loop)] of the "d"/"u" case, up to its [break]. *)
Fixpoint down_in_down_up (total_dur dur1 now_mod_60 : Z) (indices : list Z) : bool :=
  match indices with
  | [] => false
  | i :: rest =>
      if (i * total_dur <? now_mod_60) && (now_mod_60 <=? i * total_dur + dur1)
      then true
      else down_in_down_up total_dur dur1 now_mod_60 rest
  end.

(** The body of [if len(cfg.multi_url) == 1]: is the response replaced by
    "BaseURL server down"? *)
Definition base_url_server_down (spec : string) (now : Z) : result bool :=
  match split "_" spec with
  | [a_var; b_var] =>
      dur1 <- int_of_string (tail a_var) ;;
      dur2 <- int_of_string (tail b_var) ;;
      let total_dur := dur1 + dur2 in
      num_loop <- ceil_60_over total_dur ;;
      let now_mod_60 := now mod 60 in
      a0 <- head a_var ;;
      b0 <- head b_var ;;
      if Ascii.eqb a0 "u" && Ascii.eqb b0 "d" then
        Ok (down_in_up_down total_dur dur1 now_mod_60 (range num_loop))
      else if Ascii.eqb a0 "d" && Ascii.eqb b0 "u" then
        Ok (down_in_down_up total_dur dur1 now_mod_60 (range num_loop))
      else Ok false
  | _ => Raise ValueError
  end.

(** The media branch of [parse_url] once both availability tests passed. *)
Definition serve_media_segment (self : DashProvider) (cfg : Config) : M Response :=
  response <~ process_media_segment self cfg (now_float self) ;;
  response <~ match multi_url cfg with
              | [spec] =>
                  down <~ lift (base_url_server_down spec (now self)) ;;
                  if down then error_response self (FaultInjected (now self))
                  else ret response
              | _ => ret response
              end ;;
  _ <~ emit Sleep_500ms ;;
  ret response.

(** [parse_url], given the configuration that [ConfigProcessor] returns for
    the request. *)
Definition parse_url (self : DashProvider) (cfg0 : Config) : M Response :=
  cfg <~ lift (sort_by_period cfg0 (now self)) ;;
  if String.eqb (ext cfg) ".mpd" then
    let mpd_filenames :=
      map (fun filename => mkPath [content_dir self; content_name cfg] filename)
        (filenames cfg) in
    generate_dynamic_mpd cfg mpd_filenames
  else if String.eqb (ext cfg) ".mp4" then
    if now self <? availability_start_time_in_s cfg - init_seg_avail_offset cfg then
      opening <~ lift (float_of_int (availability_start_time_in_s cfg
                                     - init_seg_avail_offset cfg)) ;;
      let diff := float_sub opening (now_float self) in
      f <~ lift (first (filenames cfg)) ;;
      error_response self (TooEarlyInit f diff)
    else process_init_segment self cfg
  else if String.eqb (ext cfg) ".m4s" then
    first_segment_ast <~
      (if Qeq_bool (availability_time_offset_in_s cfg) (-1 # 1) then
         ret (Int (availability_start_time_in_s cfg))
       else
         v0 <~ lift (first (vod_infos cfg)) ;;
         ast_plus_dur <~ lift (float_of_int (availability_start_time_in_s cfg
                                             + seg_duration v0)) ;;
         ret (Float (float_sub ast_plus_dur (availability_time_offset_in_s cfg)))) ;;
    if Qlt_bool (now_float self) (number_value first_segment_ast) then
      first_float <~ lift (as_float first_segment_ast) ;;
      let diff := float_sub first_float (now_float self) in
      f <~ lift (first (filenames cfg)) ;;
      error_response self (TooEarlyMedia f diff)
    else
      match availability_end_time cfg with
      | Some aet =>
          if now self >? aet + EXTRA_TIME_AFTER_END_IN_S then
            limit <~ lift (float_of_int (aet + EXTRA_TIME_AFTER_END_IN_S)) ;;
            let diff := float_sub (now_float self) limit in
            f <~ lift (first (filenames cfg)) ;;
            error_response self (TooLateMedia f diff)
          else serve_media_segment self cfg
      | None => serve_media_segment self cfg
      end
  else ret (UnknownFileExtension (ext cfg)).

(** [handle_request]: the request object is built and [parse_url] runs. *)
Definition handle_request (url_parts : list string) (cfg : Config) (content_dir : string)
    (now : Q) (req : bool) : M Response :=
  dash_provider <~ lift (new_DashProvider url_parts content_dir now req) ;;
  parse_url dash_provider cfg.

(** ** Notions of the specification

    The definitions of this part follow the wording of the specification;
    the theorems below compare them with the functions above. *)

(** The byte-rewrite calls behind a response. *)
Definition calls_of (r : Response) : list FilterCall :=
  match r with
  | MediaData seg => [seg]
  | MuxedMedia seg1 seg2 => [seg1; seg2]
  | _ => []
  end.

(** The local segment number of a byte-rewrite call: the stem of the file
    that is read. *)
Definition local_seg_nr (c : FilterCall) : Stem := seg_base (file (media_seg_file c)).

(** A media request is accepted when it is answered with segment data. *)
Definition accepted (r : result Response) : bool :=
  match r with
  | Ok (MediaData _) | Ok (MuxedMedia _ _) => true
  | _ => false
  end.

(** The configuration of a request for the given files. *)
Definition request (cfg : Config) (e : string) (fs : list FileName) : Config :=
  mkConfig e (content_name cfg) (rel_path cfg) fs (repId cfg) (reps cfg) (vod_infos cfg)
    (availability_start_time_in_s cfg) (availability_time_offset_in_s cfg)
    (availability_end_time cfg) (init_seg_avail_offset cfg) (start_nr cfg)
    (start_from_ast cfg) (last_segment_numbers cfg) (initial_durations cfg)
    (loop_duration cfg) (multi_url cfg) (scte35_per_minute cfg).

Definition segment_file (n : Z) : FileName := mkFileName (NumberStem n) ".m4s".

(** "effectiveStartNumber = startNumber == -1 ? 1 : startNumber" *)
Definition effectiveStartNumber (startNumber : Z) : Z :=
  if startNumber =? -1 then 1 else startNumber.

(** The maximum of a terminal segment-number set; [None] when no set is
    configured. *)
Definition terminal_max (l : list Z) : option Z :=
  match l with
  | [] => None
  | x :: r => Some (fold_left Z.max r x)
  end.

(** TimingDecision: what the mapping of a segment number yields. *)
Record TimingDecision : Type := mkTimingDecision {
  localSegNr : Z;
  offsetAtLoopStart : Z;
  terminalFlag : bool
}.

(** The mapping of section 4.2 of the specification, for a loop duration
    [loopDuration], the active asset [asset] and the first initial-duration
    boundary [boundary]. *)
Definition mapSegmentWith (loopDuration : Z) (cfg : Config) (asset : VodInfo)
    (boundary : Z) (requestedSegNr : Z) : TimingDecision :=
  let segDuration := seg_duration asset in
  let segTime := (requestedSegNr - effectiveStartNumber (start_nr cfg)) * segDuration
                 + availability_start_time_in_s cfg in
  let diff := segTime - availability_start_time_in_s cfg in
  let loops := diff / loopDuration in
  let time := diff mod loopDuration in
  let last := if time >=? boundary then boundary else 0 in
  let segNrInLoop := (time - last) / segDuration in
  mkTimingDecision (segNrInLoop + first_segment_in_loop asset)
    (loops * loopDuration + last)
    (if in_dec Z.eq_dec requestedSegNr (last_segment_numbers cfg) then true else false).

(** The mapping with the loop duration as the specification describes it:
    the sum of the wrap durations of the active rotation. *)
Definition mapSegment (cfg : Config) (asset : VodInfo) (boundary : Z)
    (requestedSegNr : Z) : TimingDecision :=
  mapSegmentWith (total_wrap (vod_infos cfg)) cfg asset boundary requestedSegNr.


(** ceil(a / b) *)
Definition ceil_div (a b : Z) : Z := - ((- a) / b).


(** A segment number is advertised as available at [now] by a period list:
    some period starts at or before that number, and the segment's
    availability time in it, which is
    AST + start + (number + 1 - startNumber) * duration
    (the [segment_ast] of the docstring of [process_media_segment], counted
    from the start of the period), has come. *)
Definition advertised_in (ast now k : Z) (p : PeriodData) : bool :=
  (startNumber p <=? k) &&
  (ast + start_s p + (k + 1 - startNumber p) * duration p <=? now).

Definition advertised (period_data : list PeriodData) (ast now k : Z) : bool :=
  existsb (advertised_in ast now k) period_data.

(** ** Configurations used as concrete inputs *)

Definition video_rep : Rep := mkRep "V1" 90000 "video".
Definition audio_rep : Rep := mkRep "A1" 48000 "audio".
Definition text_rep : Rep := mkRep "T1" 1000 "subtitles".

(** One asset of [wrap] seconds cut into segments of [seg_dur] seconds. *)
Definition asset (wrap seg_dur : Z) : VodInfo :=
  mkVodInfo wrap seg_dur 1 (wrap * 90000) 90000.

(** A stream of the single asset [asset wrap seg_dur], starting at time 0,
    with one video representation. *)
Definition live_config (e : string) (f : FileName) (wrap seg_dur start_nr : Z) (ato : Q)
    : Config :=
  mkConfig e "testpic" "V1" [f] "V1" [video_rep] [asset wrap seg_dur]
    0 ato None 0 start_nr 0 [] [wrap] wrap [] 0.

Definition manifest_file : FileName := mkFileName (WordStem "Manifest") ".mpd".
Definition init_file_name : FileName := mkFileName (WordStem "init") ".mp4".

Definition with_reps (cfg : Config) (rs : list Rep) : Config :=
  mkConfig (ext cfg) (content_name cfg) (rel_path cfg) (filenames cfg) (repId cfg) rs
    (vod_infos cfg) (availability_start_time_in_s cfg) (availability_time_offset_in_s cfg)
    (availability_end_time cfg) (init_seg_avail_offset cfg) (start_nr cfg)
    (start_from_ast cfg) (last_segment_numbers cfg) (initial_durations cfg)
    (loop_duration cfg) (multi_url cfg) (scte35_per_minute cfg).

Definition with_last_segment_numbers (cfg : Config) (l : list Z) : Config :=
  mkConfig (ext cfg) (content_name cfg) (rel_path cfg) (filenames cfg) (repId cfg)
    (reps cfg) (vod_infos cfg) (availability_start_time_in_s cfg)
    (availability_time_offset_in_s cfg) (availability_end_time cfg)
    (init_seg_avail_offset cfg) (start_nr cfg) (start_from_ast cfg) l
    (initial_durations cfg) (loop_duration cfg) (multi_url cfg) (scte35_per_minute cfg).

Definition with_multi_url (cfg : Config) (l : list string) : Config :=
  mkConfig (ext cfg) (content_name cfg) (rel_path cfg) (filenames cfg) (repId cfg)
    (reps cfg) (vod_infos cfg) (availability_start_time_in_s cfg)
    (availability_time_offset_in_s cfg) (availability_end_time cfg)
    (init_seg_avail_offset cfg) (start_nr cfg) (start_from_ast cfg)
    (last_segment_numbers cfg) (initial_durations cfg) (loop_duration cfg) l
    (scte35_per_minute cfg).

Definition with_end_time (cfg : Config) (aet : Z) : Config :=
  mkConfig (ext cfg) (content_name cfg) (rel_path cfg) (filenames cfg) (repId cfg)
    (reps cfg) (vod_infos cfg) (availability_start_time_in_s cfg)
    (availability_time_offset_in_s cfg) (Some aet) (init_seg_avail_offset cfg)
    (start_nr cfg) (start_from_ast cfg) (last_segment_numbers cfg)
    (initial_durations cfg) (loop_duration cfg) (multi_url cfg) (scte35_per_minute cfg).

(** A rotation of a 10 s and a 100 s asset. *)
Definition two_asset_config (e : string) (f : FileName) : Config :=
  mkConfig e "testpic" "V1" [f; f] "V1" [video_rep] [asset 10 2; asset 100 2]
    0 0 None 0 0 0 [] [10] 110 [] 0.

Definition test_url : list string := ["livesim"; "testpic"; "V1"; "seg.m4s"]%string.

(** The request object of a request at the given time, without a log. *)
Definition provider_at (now : Q) : DashProvider :=
  mkDashProvider (List.tl test_url) "/content" now (int_of_float now) false.
(** ** insert_asset_identifier *)

Module Str.

(** [s[:n]] for [n >= 0] *)
Fixpoint take (n : nat) (s : string) : string :=
  match n, s with
  | S k, String a r => String a (take k r)
  | _, _ => EmptyString
  end.

(** [s[n:]] for [n >= 0] *)
Fixpoint drop (n : nat) (s : string) : string :=
  match n, s with
  | S k, String _ r => drop k r
  | _, _ => s
  end.

(** Does the character occur in the string? *)
Fixpoint occurs (c : ascii) (s : string) : bool :=
  match s with
  | EmptyString => false
  | String a r => Ascii.eqb a c || occurs c r
  end.

(** The start index of [s.find(c, start)]: a negative [start] counts from the
    end and is cut at 0. *)
Definition find_start (len start : Z) : Z :=
  if start <? 0 then Z.max 0 (start + len) else start.

(** The search of [s.find(c, start)] from index [skip] on, [pos] being the
    index of the first character of [s]; -1 when nothing is found. *)
Fixpoint find_at (c : ascii) (s : string) (skip : nat) (pos : Z) : Z :=
  match s with
  | EmptyString => -1
  | String a r =>
      match skip with
      | S k => find_at c r k (pos + 1)
      | O => if Ascii.eqb a c then pos else find_at c r O (pos + 1)
      end
  end.

(** [s.find(c, start)] for a one-character [c]. *)
Definition find (c : ascii) (s : string) (start : Z) : Z :=
  find_at c s (Z.to_nat (find_start (Z.of_nat (String.length s)) start)) 0.

End Str.

Definition double_quote : string := String (ascii_of_nat 34) EmptyString.
Definition line_feed : string := String (ascii_of_nat 10) EmptyString.

(** The element that [insert_asset_identifier] inserts. *)
Definition ASSET_IDENTIFIER : string :=
  (line_feed ++ "<AssetIdentifier schemeIdUri=" ++ double_quote
   ++ "urn:org:dashif:asset-id:2013" ++ double_quote ++ " value=" ++ double_quote
   ++ "md:cid:EIDR:10.5240%2f0EFB-02CD-126E-8092-1E49-W" ++ double_quote
   ++ "></AssetIdentifier>")%string.

Definition insert_asset_identifier (response : string) (start_pos_period : Z) : string :=
  let ad_pos := Str.find ">" response start_pos_period + 1 in
  (Str.take (Z.to_nat ad_pos) response ++ ASSET_IDENTIFIER
   ++ Str.drop (Z.to_nat ad_pos) response)%string.

(** ** Notions used to state further properties *)

(** The events that reach a collaborator other than the request log. *)
Definition is_log (ev : Event) : bool :=
  match ev with
  | LogError _ _ => true
  | _ => false
  end.

Definition is_sleep (ev : Event) : bool :=
  match ev with
  | Sleep_500ms => true
  | _ => false
  end.

(** The events of a response that carries segment data. *)
Definition media_events (r : Response) : list Event :=
  match r with
  | MediaData seg => [MediaSegmentFilter_filter seg]
  | MuxedMedia seg1 seg2 =>
      [MediaSegmentFilter_filter seg1; MediaSegmentFilter_filter seg2;
       MultiplexMediaSegments_mux seg1 seg2]
  | _ => []
  end.

(** Each period starts where the one before it ends. *)
Fixpoint contiguous (start : Z) (periods : list PeriodData) : bool :=
  match periods with
  | [] => true
  | p :: rest =>
      (start_s p =? start) && contiguous (start + periodDuration p) rest
  end.

(** The number of occurrences of a character. *)
Fixpoint count_char (c : ascii) (s : string) : nat :=
  match s with
  | EmptyString => O
  | String a r => ((if Ascii.eqb a c then 1 else 0) + count_char c r)%nat
  end.


(** The "dA_uB" counterpart of [in_down_interval]: the down part of
    repetition [i] is (i * cycle, i * cycle + A]. *)
Definition in_leading_down_interval (A B phase : Z) : Prop :=
  let cycle := A + B in
  exists i, 0 <= i < ceil_div 60 cycle /\
            i * cycle < phase <= i * cycle + A.

(** * Properties *)

(** ** The functions on examples *)

(** Thirteen seconds into a rotation of a 10 s and a 100 s asset the second
    loop of [sort_by_period] moves the first asset to the end. *)
Example two_assets_forward_rotation :
  option_map (fun cfg => (map wrap_seconds (vod_infos cfg), start_from_ast cfg))
    (match sort_by_period (two_asset_config ".mpd" manifest_file) 13 with
     | Ok cfg => Some cfg
     | Raise _ => None
     end)
  = Some ([100; 10], 10).
Proof. reflexivity. Qed.

(** Eleven seconds into it nothing moves, and the last asset is put in front:
    the manifest gets a period that starts 100 s before the availability
    start time. *)
Example two_assets_previous_period :
  option_map (fun cfg => (map wrap_seconds (vod_infos cfg), start_from_ast cfg))
    (match sort_by_period (two_asset_config ".mpd" manifest_file) 11 with
     | Ok cfg => Some cfg
     | Raise _ => None
     end)
  = Some ([100; 10; 100], -100).
Proof. reflexivity. Qed.

Example two_assets_periods :
  match outcome (parse_url (provider_at (11 # 1)) (two_asset_config ".mpd" manifest_file)) with
  | Ok (MpdXml _ periods) => map (fun p => (start_s p, startNumber p)) periods
  | _ => []
  end
  = [(-100, -50); (0, 0); (10, 5)].
Proof. reflexivity. Qed.

Example fault_windows :
  map (base_url_server_down "u10_d5") [5; 10; 11; 12; 15; 16; 72]
  = [Ok false; Ok false; Ok true; Ok true; Ok true; Ok false; Ok true] /\
  map (base_url_server_down "d5_u10") [0; 1; 5; 6; 16]
  = [Ok false; Ok true; Ok true; Ok false; Ok true] /\
  base_url_server_down "u0_d0" 12 = Raise ZeroDivisionError /\
  base_url_server_down "u10" 12 = Raise ValueError /\
  base_url_server_down "ux_d5" 12 = Raise ValueError /\
  base_url_server_down "a10_b5" 12 = Ok false.
Proof. repeat split. Qed.

(** [int] on the texts of a fault window: blanks around the digits and after
    the sign are skipped, as CPython 2.7 does. *)
Example int_of_string_blanks :
  map int_of_string [" 10"; "10 "; "+7"; "- 5"; "007"]%string
  = [Ok 10; Ok 10; Ok 7; Ok (-5); Ok 7] /\
  map int_of_string [" "; "1 0"; "+"; "0x10"; "1.5"]%string
  = [Raise ValueError; Raise ValueError; Raise ValueError; Raise ValueError;
     Raise ValueError] /\
  int_of_string EmptyString = Raise ValueError /\
  base_url_server_down "u 10_d5" 72 = Ok true.
Proof. repeat split. Qed.

(** [float_round] on numbers that are not doubles: a tenth, a third, the
    ties 2^53 + 1 and 2^53 + 3 (to the even significand), a number below
    the smallest normal double (the last place stays at 2^-1074), and
    10^30. *)
Example float_round_examples :
  float_round (1 # 10) = (3602879701896397 # 36028797018963968)%Q /\
  float_round (-1 # 3) = (-6004799503160661 # 18014398509481984)%Q /\
  float_round (9007199254740993 # 1) = (9007199254740992 # 1)%Q /\
  float_round (9007199254740995 # 1) = (9007199254740996 # 1)%Q /\
  float_round (1 # Z.to_pos (10 ^ 320)) = (253 # Z.to_pos (2 ^ 1071))%Q /\
  float_round (inject_Z (10 ^ 30)) = (1000000000000000019884624838656 # 1)%Q /\
  float_round (7 # 2) = (7 # 2)%Q.
Proof. vm_compute. repeat split. Qed.

Example time_stem_request :
  requested_seg_nr (TimeStem (3600000 # 1)) 4 (Some 90000) = Ok 10 /\
  requested_seg_nr (TimeStem (3600000 # 1)) 4 None = Raise TypeError /\
  requested_seg_nr (WordStem "init") 4 (Some 90000) = Raise ValueError.
Proof. repeat split. Qed.

Example init_segment_paths :
  let self := provider_at (40 # 1) in
  let one := live_config ".mp4" init_file_name 3600 4 0 0 in
  outcome (process_init_segment self one)
  = Ok (InitData (mkPath ["/content"; "testpic"; "V1"]%string init_file_name)) /\
  outcome (process_init_segment self (with_reps one [video_rep; audio_rep]))
  = Ok (MuxedInits (mkPath ["/content"; "testpic"; EmptyString; "V1"]%string init_file_name)
          (mkPath ["/content"; "testpic"; EmptyString; "A1"]%string init_file_name)).
Proof. split; reflexivity. Qed.

Example too_early_and_too_late :
  let cfg := live_config ".m4s" (segment_file 3) 3600 4 0 0 in
  outcome (parse_url (provider_at (3 # 1)) cfg)
  = Ok (ErrorResponse (TooEarlyMedia (segment_file 3) (1 # 1))) /\
  outcome (parse_url (provider_at (161 # 1)) (with_end_time cfg 100))
  = Ok (ErrorResponse (TooLateMedia (segment_file 3) (1 # 1))) /\
  accepted (outcome (parse_url (provider_at (160 # 1)) (with_end_time cfg 100))) = true.
Proof. repeat split. Qed.

(** ** Lists and sums *)

Lemma fold_wrap_shift (l : list VodInfo) (acc : Z) :
  fold_left (fun total vod_info => total + wrap_seconds vod_info) l acc
  = acc + total_wrap l.
Proof.
  unfold total_wrap. revert acc.
  induction l as [|v l IH]; intros acc; simpl.
  - lia.
  - rewrite (IH (acc + wrap_seconds v)), (IH (wrap_seconds v)). lia.
Qed.

Lemma total_wrap_cons (v : VodInfo) (l : list VodInfo) :
  total_wrap (v :: l) = wrap_seconds v + total_wrap l.
Proof.
  unfold total_wrap at 1. simpl. rewrite fold_wrap_shift. lia.
Qed.

Lemma total_wrap_app (l1 l2 : list VodInfo) :
  total_wrap (l1 ++ l2) = total_wrap l1 + total_wrap l2.
Proof.
  induction l1 as [|v l1 IH]; simpl.
  - change (total_wrap []) with 0. lia.
  - rewrite !total_wrap_cons, IH. lia.
Qed.

Lemma total_wrap_pos (l : list VodInfo) :
  l <> [] -> Forall (fun v => 0 < wrap_seconds v) l -> 0 < total_wrap l.
Proof.
  intros Hne Hall. destruct l as [|v l]; [congruence|].
  rewrite total_wrap_cons. inversion Hall as [|? ? Hv Hl]; subst.
  assert (0 <= total_wrap l); [|lia].
  clear Hne Hall Hv. induction Hl as [|w l Hw Hl IH].
  - unfold total_wrap; simpl; lia.
  - rewrite total_wrap_cons. lia.
Qed.

Lemma last_item_some {A : Type} (l : list A) :
  l <> [] -> exists x, last_item l = Ok x /\ In x l.
Proof.
  induction l as [|a l IH]; [congruence|]. intros _.
  destruct l as [|b l].
  - exists a. simpl. auto.
  - destruct IH as [x [Hx Hin]]; [discriminate|].
    exists x. split; [exact Hx | right; exact Hin].
Qed.

(** ** sort_by_period *)

Lemma with_rotation_same (cfg : Config) :
  with_rotation cfg (vod_infos cfg) (filenames cfg) (start_from_ast cfg) = cfg.
Proof. destruct cfg; reflexivity. Qed.

Lemma divmod_ok (a b : Z) : b <> 0 -> divmod a b = Ok (a / b, a mod b).
Proof.
  intros Hb. unfold divmod. destruct (Z.eqb_spec b 0); [contradiction | reflexivity].
Qed.

Lemma floordiv_ok (a b : Z) : b <> 0 -> floordiv a b = Ok (a / b).
Proof.
  intros Hb. unfold floordiv. destruct (Z.eqb_spec b 0); [contradiction | reflexivity].
Qed.

(** The shape of the result: [mid_v], [mid_f] are the lists after the loop,
    and the result either keeps them or has their last entries in front. *)
Lemma sort_by_period_shape (cfg : Config) (now : Z) :
  vod_infos cfg <> [] -> filenames cfg <> [] -> total_wrap (vod_infos cfg) <> 0 ->
  exists mid_v mid_f m0,
    ((mid_v = vod_infos cfg /\ mid_f = filenames cfg) \/
     (exists v0 vs f0 fs,
        vod_infos cfg = v0 :: vs /\ filenames cfg = f0 :: fs /\
        mid_v = vs ++ [v0] /\ mid_f = fs ++ [f0])) /\
    first mid_v = Ok m0 /\
    exists vs' fs' sfa',
      sort_by_period cfg now = Ok (with_rotation cfg vs' fs' sfa') /\
      ((now - availability_start_time_in_s cfg <= wrap_seconds m0 /\
        vs' = mid_v /\ fs' = mid_f) \/
       (wrap_seconds m0 < now - availability_start_time_in_s cfg /\
        exists lv lf,
          last_item mid_v = Ok lv /\ In lv mid_v /\
          last_item mid_f = Ok lf /\ In lf mid_f /\
          vs' = lv :: mid_v /\ fs' = lf :: mid_f)).
Proof.
  intros Hv Hf Ht.
  unfold sort_by_period. rewrite (divmod_ok _ _ Ht). cbn [bind].
  set (time := (now - availability_start_time_in_s cfg) mod total_wrap (vod_infos cfg)).
  set (loops := (now - availability_start_time_in_s cfg) / total_wrap (vod_infos cfg)).
  assert (Hfwd : exists cfg1 m0,
            (if rotation_due time 0 (vod_infos cfg) then rotate_forward cfg else Ok cfg)
            = Ok cfg1 /\
            cfg1 = with_rotation cfg (vod_infos cfg1) (filenames cfg1) (start_from_ast cfg1) /\
            first (vod_infos cfg1) = Ok m0 /\ filenames cfg1 <> [] /\
            ((vod_infos cfg1 = vod_infos cfg /\ filenames cfg1 = filenames cfg) \/
             (exists v0 vs f0 fs,
                vod_infos cfg = v0 :: vs /\ filenames cfg = f0 :: fs /\
                vod_infos cfg1 = vs ++ [v0] /\ filenames cfg1 = fs ++ [f0]))).
  { destruct (rotation_due time 0 (vod_infos cfg)).
    - unfold rotate_forward.
      destruct (vod_infos cfg) as [|v0 vs] eqn:Ev; [congruence|].
      destruct (filenames cfg) as [|f0 fs] eqn:Ef; [congruence|].
      assert (Em : exists m0 r, vs ++ [v0] = m0 :: r)
        by (destruct vs as [|a vs]; [exists v0, [] | exists a, (vs ++ [v0])]; reflexivity).
      destruct Em as [m0 [r Em]].
      exists (with_rotation cfg (vs ++ [v0]) (fs ++ [f0]) (start_from_ast cfg + wrap_seconds v0)), m0.
      cbn. rewrite Em. repeat split.
      + destruct fs; discriminate.
      + right. exists v0, vs, f0, fs. auto.
    - destruct (vod_infos cfg) as [|v0 vs] eqn:Ev; [congruence|].
      exists cfg, v0. rewrite with_rotation_same, Ev. repeat split; auto. }
  destruct Hfwd as [cfg1 [m0 [E1 [Hsame [Hm0 [Hf1 Hshape]]]]]].
  rewrite E1. cbn [bind].
  exists (vod_infos cfg1), (filenames cfg1), m0.
  split; [exact Hshape|]. split; [exact Hm0|].
  unfold prepend_last. rewrite Hm0. cbn [bind].
  assert (HA : availability_start_time_in_s cfg1 = availability_start_time_in_s cfg)
    by (rewrite Hsame; reflexivity).
  rewrite HA.
  destruct (Z.gtb_spec (now - availability_start_time_in_s cfg) (wrap_seconds m0)) as [Hgt|Hle].
  - assert (Hv1 : vod_infos cfg1 <> []) by (destruct (vod_infos cfg1); [discriminate|congruence]).
    destruct (last_item_some _ Hv1) as [lv [Elv Hinv]].
    destruct (last_item_some _ Hf1) as [lf [Elf Hinf]].
    rewrite Elv, Elf. cbn [bind].
    eexists _, _, _. split.
    + rewrite Hsame at 1. cbn. reflexivity.
    + right. split; [lia|]. exists lv, lf. cbn. auto 10.
  - cbn [bind]. eexists _, _, _. split.
    + rewrite Hsame at 1. cbn. reflexivity.
    + left. cbn. split; [lia|]. auto.
Qed.

(** Whatever holds of every asset and of every file name before the call
    holds after it, and neither list becomes empty. *)
Lemma sort_by_period_invariant (P : VodInfo -> Prop) (Q : FileName -> Prop)
    (cfg : Config) (now : Z) :
  vod_infos cfg <> [] -> filenames cfg <> [] -> total_wrap (vod_infos cfg) <> 0 ->
  Forall P (vod_infos cfg) -> Forall Q (filenames cfg) ->
  exists vs fs sfa,
    sort_by_period cfg now = Ok (with_rotation cfg vs fs sfa) /\
    vs <> [] /\ fs <> [] /\ Forall P vs /\ Forall Q fs.
Proof.
  intros Hv Hf Ht HP HQ.
  destruct (sort_by_period_shape cfg now Hv Hf Ht)
    as [mid_v [mid_f [m0 [Hmid [Hm0 [vs' [fs' [sfa' [E Hres]]]]]]]]].
  assert (Hmv : Forall P mid_v /\ Forall Q mid_f /\ mid_f <> []).
  { destruct Hmid as [[-> ->] | [v0 [vs [f0 [fs [Ev [Ef [-> ->]]]]]]]]; [auto|].
    rewrite Ev in HP. rewrite Ef in HQ.
    inversion HP; inversion HQ; subst.
    repeat split; try (apply Forall_app; auto).
    destruct fs; discriminate. }
  destruct Hmv as [HPm [HQm Hfm]].
  assert (Hvm : mid_v <> []) by (destruct mid_v; [discriminate | congruence]).
  exists vs', fs', sfa'. split; [exact E|].
  destruct Hres as [[_ [-> ->]] | [_ [lv [lf [_ [Hlv [_ [Hlf [-> ->]]]]]]]]].
  - auto.
  - repeat split; try discriminate; constructor; auto.
    + rewrite Forall_forall in HPm. auto.
    + rewrite Forall_forall in HQm. auto.
Qed.

Lemma mod_small_single (diff W : Z) : 0 < W -> 0 <= diff mod W < W.
Proof. intros HW. apply Z.mod_pos_bound. exact HW. Qed.

(** ** Claims on the rotation *)

(** C2, as stated, fails: for one asset of 10 seconds and [now] 11 seconds
    after the availability start time the result lists the asset twice, so
    the wrap durations sum to 20 instead of 10. *)
Lemma wrap_sum_not_conserved :
  let cfg := live_config ".m4s" (segment_file 0) 10 2 0 (-1 # 1) in
  vod_infos cfg <> [] /\
  Forall (fun v => 0 < wrap_seconds v) (vod_infos cfg) /\
  total_wrap (vod_infos cfg) <> 0 /\
  exists cfg',
    sort_by_period cfg 11 = Ok cfg' /\
    total_wrap (vod_infos cfg) = 10 /\ total_wrap (vod_infos cfg') = 20.
Proof.
  cbv zeta. split; [discriminate|]. split; [repeat constructor|].
  split; [discriminate|].
  eexists. split; [reflexivity|]. split; reflexivity.
Qed.

(** C2, amended.  For a non-empty catalog of assets with positive wrap
    durations (and a non-empty list of file names) [sort_by_period] returns
    a non-empty asset list.  With [rot] the list after the forward step (its
    wrap durations sum to the original total): if [now] is at most the wrap
    duration of the first asset of [rot] after the availability start time,
    the result is [rot] and the sum is the original one; otherwise the result
    is [rot] with a copy of its last asset in front, and the sum is the
    original one plus the wrap duration of that asset. *)
Theorem sort_by_period_wrap_sum (cfg : Config) (now : Z) :
  vod_infos cfg <> [] -> filenames cfg <> [] ->
  Forall (fun v => 0 < wrap_seconds v) (vod_infos cfg) ->
  exists cfg' rot m0,
    sort_by_period cfg now = Ok cfg' /\
    vod_infos cfg' <> [] /\
    (rot = vod_infos cfg \/
     exists v0 vs, vod_infos cfg = v0 :: vs /\ rot = vs ++ [v0]) /\
    first rot = Ok m0 /\
    total_wrap rot = total_wrap (vod_infos cfg) /\
    (now - availability_start_time_in_s cfg <= wrap_seconds m0 ->
       vod_infos cfg' = rot /\
       total_wrap (vod_infos cfg') = total_wrap (vod_infos cfg)) /\
    (wrap_seconds m0 < now - availability_start_time_in_s cfg ->
       exists dup,
         last_item rot = Ok dup /\ vod_infos cfg' = dup :: rot /\
         total_wrap (vod_infos cfg') = total_wrap (vod_infos cfg) + wrap_seconds dup).
Proof.
  intros Hv Hf Hpos.
  assert (Ht : total_wrap (vod_infos cfg) <> 0)
    by (pose proof (total_wrap_pos _ Hv Hpos); lia).
  destruct (sort_by_period_shape cfg now Hv Hf Ht)
    as [mid_v [mid_f [m0 [Hmid [Hm0 [vs' [fs' [sfa' [E Hres]]]]]]]]].
  assert (Hsum : total_wrap mid_v = total_wrap (vod_infos cfg)).
  { destruct Hmid as [[-> _] | [v0 [vs [f0 [fs [Ev [_ [-> _]]]]]]]]; [reflexivity|].
    rewrite Ev, total_wrap_app, !total_wrap_cons.
    change (total_wrap []) with 0. lia. }
  exists (with_rotation cfg vs' fs' sfa'), mid_v, m0.
  split; [exact E|]. cbn [vod_infos with_rotation].
  assert (Hrot : mid_v = vod_infos cfg \/
                 exists v0 vs, vod_infos cfg = v0 :: vs /\ mid_v = vs ++ [v0]).
  { destruct Hmid as [[-> _] | [v0 [vs [f0 [fs [Ev [_ [-> _]]]]]]]]; [left; reflexivity|].
    right. exists v0, vs. auto. }
  destruct Hres as [[Hle [-> ->]] | [Hgt [lv [lf [Elv [_ [_ [_ [-> ->]]]]]]]]].
  - split; [destruct mid_v; [discriminate | congruence]|].
    split; [exact Hrot|].
    split; [exact Hm0|]. split; [exact Hsum|]. split.
    + intros _. split; [reflexivity | exact Hsum].
    + intros Hgt. lia.
  - split; [discriminate|].
    split; [exact Hrot|].
    split; [exact Hm0|]. split; [exact Hsum|]. split.
    + intros Hle. lia.
    + intros _. exists lv. split; [exact Elv|]. split; [reflexivity|].
      rewrite total_wrap_cons. lia.
Qed.

(** The amended C2 at one asset of 10 seconds, 25 seconds after the start. *)
Lemma sort_by_period_wrap_sum_witness :
  exists cfg' rot m0,
    sort_by_period (live_config ".m4s" (segment_file 3) 10 2 0 (-1 # 1)) 25 = Ok cfg' /\
    vod_infos cfg' <> [] /\
    (rot = [asset 10 2] \/
     exists v0 vs, [asset 10 2] = v0 :: vs /\ rot = vs ++ [v0]) /\
    first rot = Ok m0 /\
    total_wrap rot = 10 /\
    (25 - 0 <= wrap_seconds m0 ->
       vod_infos cfg' = rot /\ total_wrap (vod_infos cfg') = 10) /\
    (wrap_seconds m0 < 25 - 0 ->
       exists dup,
         last_item rot = Ok dup /\ vod_infos cfg' = dup :: rot /\
         total_wrap (vod_infos cfg') = 10 + wrap_seconds dup).
Proof.
  apply (sort_by_period_wrap_sum (live_config ".m4s" (segment_file 3) 10 2 0 (-1 # 1)) 25).
  - discriminate.
  - discriminate.
  - repeat constructor.
Defined.

(** C4, as stated, fails: for one asset of 3600 seconds and [now] 3700
    seconds after the availability start time the asset list has two entries
    afterwards, and [start_from_ast] is 0, not [loops * total] = 3600. *)
Lemma single_asset_is_duplicated :
  let cfg := live_config ".mpd" manifest_file 3600 4 0 0 in
  vod_infos cfg = [asset 3600 4] /\
  exists cfg',
    sort_by_period cfg 3700 = Ok cfg' /\
    vod_infos cfg' = [asset 3600 4; asset 3600 4] /\
    filenames cfg' = [manifest_file; manifest_file] /\
    start_from_ast cfg' = 0 /\
    start_from_ast cfg + (3700 - availability_start_time_in_s cfg) / 3600 * 3600 = 3600.
Proof.
  cbv zeta. split; [reflexivity|].
  eexists. split; [reflexivity|]. repeat split.
Qed.

(** C4, amended.  For a catalog of exactly one asset (wrap duration
    positive, segment duration not negative) the forward rotation never
    fires.  While [now] is at most one wrap duration after the availability
    start time, the asset list and the file names are unchanged and
    [start_from_ast] grows by [loops * total].  Later, the asset and the last
    file name are put in front once more (the asset list becomes [a; a]) and
    [start_from_ast] grows by [loops * total - total]. *)
Theorem single_asset_schedule (cfg : Config) (a : VodInfo) (now : Z) :
  vod_infos cfg = [a] -> 0 < wrap_seconds a -> 0 <= seg_duration a ->
  let total := wrap_seconds a in
  let diff := now - availability_start_time_in_s cfg in
  let loops := diff / total in
  (diff <= total ->
     sort_by_period cfg now
     = Ok (with_rotation cfg [a] (filenames cfg) (start_from_ast cfg + loops * total)))
  /\
  (total < diff ->
     forall lf, last_item (filenames cfg) = Ok lf ->
     sort_by_period cfg now
     = Ok (with_rotation cfg [a; a] (lf :: filenames cfg)
             (start_from_ast cfg - total + loops * total))).
Proof.
  intros Hv HW HD total diff loops.
  assert (Ht : total_wrap (vod_infos cfg) = total).
  { rewrite Hv, total_wrap_cons. change (total_wrap []) with 0. unfold total. lia. }
  assert (Hnorot : rotation_due (diff mod total) 0 (vod_infos cfg) = false).
  { rewrite Hv. cbn [rotation_due].
    pose proof (mod_small_single diff total HW) as Hm.
    destruct (Z.gtb_spec (diff mod total) (0 + wrap_seconds a + seg_duration a));
      [unfold total in *; lia | reflexivity]. }
  unfold sort_by_period. rewrite Ht.
  rewrite divmod_ok by (unfold total; lia). cbn [bind].
  fold diff. rewrite Hnorot. cbn [bind].
  unfold prepend_last. rewrite Hv. cbn [first bind last_item].
  fold diff. fold total.
  split.
  - intros Hle. destruct (Z.gtb_spec diff total); [lia|].
    cbn [bind]. rewrite Hv. reflexivity.
  - intros Hgt lf Elf. destruct (Z.gtb_spec diff total); [|lia].
    rewrite Elf. cbn [bind]. reflexivity.
Qed.

(** The amended C4 at one asset of 3600 seconds, 40 seconds and 7300 seconds
    after the availability start time. *)
Lemma single_asset_schedule_witness :
  sort_by_period (live_config ".m4s" (segment_file 9) 3600 4 0 0) 40
  = Ok (with_rotation (live_config ".m4s" (segment_file 9) 3600 4 0 0)
          [asset 3600 4] [segment_file 9] 0)
  /\
  sort_by_period (live_config ".m4s" (segment_file 9) 3600 4 0 0) 7300
  = Ok (with_rotation (live_config ".m4s" (segment_file 9) 3600 4 0 0)
          [asset 3600 4; asset 3600 4] [segment_file 9; segment_file 9] 3600).
Proof.
  split.
  - apply (proj1 (single_asset_schedule
                    (live_config ".m4s" (segment_file 9) 3600 4 0 0) (asset 3600 4) 40
                    eq_refl eq_refl ltac:(discriminate))).
    discriminate.
  - apply (proj2 (single_asset_schedule
                    (live_config ".m4s" (segment_file 9) 3600 4 0 0) (asset 3600 4) 7300
                    eq_refl eq_refl ltac:(discriminate))).
    + reflexivity.
    + reflexivity.
Defined.

(** ** The monad of collaborator calls *)

Lemma mbind_lift_ok {A B : Type} (a : A) (f : A -> M B) : mbind (lift (Ok a)) f = f a.
Proof. unfold mbind, lift. destruct (f a). reflexivity. Qed.

Lemma mbind_ret {A B : Type} (a : A) (f : A -> M B) : mbind (ret a) f = f a.
Proof. apply mbind_lift_ok. Qed.

Lemma outcome_mbind_ok {A B : Type} (m : M A) (f : A -> M B) (t : list Event) (a : A) :
  m = (t, Ok a) -> outcome (mbind m f) = outcome (f a).
Proof. intros ->. unfold mbind, outcome. destruct (f a). reflexivity. Qed.

Lemma outcome_error_response (self : DashProvider) (msg : Message) :
  outcome (error_response self msg) = Ok (ErrorResponse msg).
Proof. unfold error_response. destruct (req self); reflexivity. Qed.

(** ** process_media_segment *)

Lemma seg_start_nr_effective (cfg : Config) :
  seg_start_nr_of cfg = effectiveStartNumber (start_nr cfg).
Proof. reflexivity. Qed.

Lemma is_last_segment_in (n : Z) (cfg : Config) :
  is_last_segment n cfg
  = if in_dec Z.eq_dec n (last_segment_numbers cfg) then true else false.
Proof.
  unfold is_last_segment.
  destruct (in_dec Z.eq_dec n (last_segment_numbers cfg)) as [Hin | Hnin].
  - apply existsb_exists. exists n. split; [exact Hin | apply Z.eqb_refl].
  - destruct (existsb (Z.eqb n) (last_segment_numbers cfg)) eqn:E; [|reflexivity].
    apply existsb_exists in E. destruct E as [x [Hin Hx]].
    apply Z.eqb_eq in Hx. subst x. contradiction.
Qed.

(** The last entry of a list of numbers is at most its maximum. *)
Lemma fold_max_ge (l : list Z) (x : Z) : x <= fold_left Z.max l x.
Proof.
  revert x. induction l as [|y l IH]; intros x; simpl; [lia|].
  specialize (IH (Z.max x y)). lia.
Qed.

Lemma last_item_le_max (l : list Z) (v m : Z) :
  last_item l = Ok v -> terminal_max l = Some m -> v <= m.
Proof.
  destruct l as [|x l]; [discriminate|].
  simpl terminal_max. intros Hl Hm. injection Hm as <-.
  revert x Hl. induction l as [|y l IH]; intros x Hl.
  - simpl in Hl. injection Hl as ->. simpl. lia.
  - change (last_item (x :: y :: l)) with (last_item (y :: l)) in Hl.
    simpl fold_left. specialize (IH (Z.max x y)).
    destruct l as [|z l].
    + simpl in *. injection Hl as ->. lia.
    + apply IH. exact Hl.
Qed.

(** A request that passes the two tests on the segment number goes on to the
    mapping arithmetic and the dispatch. *)
Lemma process_media_segment_mapped (self : DashProvider) (cfg : Config) (now_float : Q)
    (v0 : VodInfo) (vs : list VodInfo) (f : FileName) (fs : list FileName)
    (d0 : Z) (ds : list Z) (n : Z) :
  vod_infos cfg = v0 :: vs -> filenames cfg = f :: fs ->
  initial_durations cfg = d0 :: ds ->
  requested_seg_nr (seg_base f) (seg_duration v0) (get_timescale cfg) = Ok n ->
  seg_start_nr_of cfg <= n ->
  (forall very_last, last_item (last_segment_numbers cfg) = Ok very_last -> n <= very_last) ->
  loop_duration cfg <> 0 -> seg_duration v0 <> 0 ->
  let diff := (n - seg_start_nr_of cfg) * seg_duration v0
              + availability_start_time_in_s cfg - availability_start_time_in_s cfg in
  let loops := diff / loop_duration cfg in
  let time := diff mod loop_duration cfg in
  let last := if time >=? d0 then d0 else 0 in
  process_media_segment self cfg now_float
  = dispatch_media_segment self cfg
      ((time - last) / seg_duration v0 + first_segment_in_loop v0) n (seg_ext f)
      (loops * loop_duration cfg + last) (is_last_segment n cfg).
Proof.
  intros Hv Hf Hd Hn Hstart Hlast HL HD diff loops time last.
  unfold process_media_segment.
  rewrite Hv. cbn [first]. rewrite mbind_lift_ok.
  rewrite Hf. cbn [first]. rewrite mbind_lift_ok.
  rewrite Hn, mbind_lift_ok.
  destruct (Z.ltb_spec n (seg_start_nr_of cfg)) as [Hlt|_]; [lia|].
  assert (Hb : (match last_segment_numbers cfg with
                | [] => Ok None
                | _ :: _ =>
                    very_last_segment <- last_item (last_segment_numbers cfg) ;;
                    Ok (if n >? very_last_segment then Some very_last_segment else None)
                end) = Ok None).
  { destruct (last_segment_numbers cfg) as [|x l] eqn:El; [reflexivity|].
    destruct (last_item_some (x :: l)) as [vl [Evl _]]; [discriminate|].
    rewrite Evl. cbn [bind]. specialize (Hlast vl Evl).
    destruct (Z.gtb_spec n vl); [lia | reflexivity]. }
  rewrite Hb, mbind_lift_ok.
  rewrite divmod_ok by exact HL. rewrite mbind_lift_ok.
  rewrite Hd. cbn [first]. rewrite mbind_lift_ok.
  rewrite floordiv_ok by exact HD. rewrite mbind_lift_ok.
  reflexivity.
Qed.

(** With a representation at hand the dispatch answers with segment data,
    and every byte-rewrite call carries the values it was given. *)
Lemma dispatch_media_segment_calls (self : DashProvider) (cfg : Config)
    (vod_nr seg_nr : Z) (seg_ext : string) (offset : Z) (lmsg : bool) :
  vod_infos cfg <> [] -> reps cfg <> [] ->
  exists resp,
    outcome (dispatch_media_segment self cfg vod_nr seg_nr seg_ext offset lmsg) = Ok resp /\
    accepted (Ok resp) = true /\
    Forall (fun c => local_seg_nr c = NumberStem vod_nr /\
                     fc_offset_at_loop_start c = offset /\
                     fc_lmsg c = lmsg /\ fc_seg_nr c = seg_nr) (calls_of resp) /\
    List.length (calls_of resp) = (if (List.length (reps cfg) =? 1)%nat then 1%nat else 2%nat).
Proof.
  intros Hv Hr.
  destruct (vod_infos cfg) as [|v0 vs] eqn:Ev; [congruence|].
  destruct (reps cfg) as [|r0 rs] eqn:Er; [congruence|].
  unfold dispatch_media_segment, filter_media_segment.
  rewrite Er, Ev.
  destruct rs as [|r1 rs].
  - eexists. cbn. repeat split. repeat constructor.
  - assert (Hn : (Z.of_nat (List.length (r0 :: r1 :: rs)) =? 1) = false).
    { apply Z.eqb_neq. cbn [List.length]. lia. }
    rewrite Hn. eexists. cbn. repeat split. repeat constructor.
Qed.

(** C5, as stated, fails: [sort_by_period] rotates the catalog and copies an
    asset in front of it, and it never assigns [cfg.loop_duration], which
    [process_media_segment] divides by.  In a rotation of a 10 s and a 100 s
    asset with a loop duration of 110 s, the catalog is as configured 5 s
    after the availability start time (wrap durations 110 s in all) and has
    the wrap durations 10, 100 and 10 (120 s in all) 125 s after it.  There
    the request for segment 58 reads local segment 4 at offset 110, where the
    mapping with the sum of the wrap durations of the active rotation gives
    local segment 54 at offset 10. *)
Lemma loop_duration_is_not_the_rotation_sum :
  let cfg0 := two_asset_config ".m4s" (segment_file 58) in
  let cfg := with_rotation cfg0 [asset 10 2; asset 100 2; asset 10 2]
               [segment_file 58; segment_file 58; segment_file 58] 110 in
  sort_by_period cfg0 5 = Ok cfg0 /\
  total_wrap (vod_infos cfg0) = 110 /\
  sort_by_period cfg0 125 = Ok cfg /\
  total_wrap (vod_infos cfg) = 120 /\
  loop_duration cfg = 110 /\
  (match outcome (parse_url (provider_at (125 # 1)) cfg0) with
   | Ok (MediaData seg) =>
       local_seg_nr seg = NumberStem 4 /\ fc_offset_at_loop_start seg = 110
   | _ => False
   end) /\
  localSegNr (mapSegment cfg (asset 10 2) 10 58) = 54 /\
  offsetAtLoopStart (mapSegment cfg (asset 10 2) 10 58) = 10.
Proof. vm_compute. repeat split. Qed.

(** C5, amended.  For a request that passes the tests on the segment number,
    with a loop duration and a segment duration that are not zero,
    [process_media_segment] answers with segment data, and every
    byte-rewrite call carries the local segment number, the offset at the
    start of the loop and the terminal flag of the mapping written after the
    specification, taken with the configured [cfg.loop_duration] as its loop
    duration. *)
Theorem mapping_arithmetic (self : DashProvider) (cfg : Config) (now_float : Q)
    (v0 : VodInfo) (vs : list VodInfo) (f : FileName) (fs : list FileName)
    (d0 : Z) (ds : list Z) (n : Z) :
  vod_infos cfg = v0 :: vs -> filenames cfg = f :: fs ->
  initial_durations cfg = d0 :: ds ->
  requested_seg_nr (seg_base f) (seg_duration v0) (get_timescale cfg) = Ok n ->
  effectiveStartNumber (start_nr cfg) <= n ->
  (forall very_last, last_item (last_segment_numbers cfg) = Ok very_last -> n <= very_last) ->
  loop_duration cfg <> 0 ->
  seg_duration v0 <> 0 -> reps cfg <> [] ->
  let decision := mapSegmentWith (loop_duration cfg) cfg v0 d0 n in
  exists resp,
    outcome (process_media_segment self cfg now_float) = Ok resp /\
    accepted (Ok resp) = true /\
    calls_of resp <> [] /\
    forall c, In c (calls_of resp) ->
      local_seg_nr c = NumberStem (localSegNr decision) /\
      fc_offset_at_loop_start c = offsetAtLoopStart decision /\
      fc_lmsg c = terminalFlag decision /\
      fc_seg_nr c = n.
Proof.
  intros Hv Hf Hd Hn Hstart Hlast HL HD Hr decision.
  rewrite (process_media_segment_mapped self cfg now_float v0 vs f fs d0 ds n)
    by assumption.
  cbv zeta.
  match goal with
  | |- context [dispatch_media_segment self cfg ?vod_nr ?nr ?e ?off ?lmsg] =>
      destruct (dispatch_media_segment_calls self cfg vod_nr nr e off lmsg)
        as [resp [E [Hacc [Hcalls Hlen]]]]
  end;
    [rewrite Hv; discriminate | exact Hr |].
  exists resp. split; [exact E|]. split; [exact Hacc|].
  split.
  { intros Hnil. rewrite Hnil in Hlen. simpl in Hlen.
    destruct (List.length (reps cfg) =? 1)%nat; discriminate. }
  intros c Hc.
  unfold decision, mapSegmentWith. cbn [localSegNr offsetAtLoopStart terminalFlag].
  rewrite <- is_last_segment_in, <- seg_start_nr_effective.
  rewrite Forall_forall in Hcalls. exact (Hcalls c Hc).
Qed.

(** The amended C5 at segment number 58 of the rotation of a 10 s and a
    100 s asset, as [sort_by_period] leaves it 125 s after the availability
    start time. *)
Lemma mapping_arithmetic_witness :
  let self := provider_at (125 # 1) in
  let cfg := with_rotation (two_asset_config ".m4s" (segment_file 58))
               [asset 10 2; asset 100 2; asset 10 2]
               [segment_file 58; segment_file 58; segment_file 58] 110 in
  exists resp,
    outcome (process_media_segment self cfg (125 # 1)) = Ok resp /\
    accepted (Ok resp) = true /\
    calls_of resp <> [] /\
    forall c, In c (calls_of resp) ->
      local_seg_nr c
      = NumberStem (localSegNr (mapSegmentWith 110 cfg (asset 10 2) 10 58)) /\
      fc_offset_at_loop_start c
      = offsetAtLoopStart (mapSegmentWith 110 cfg (asset 10 2) 10 58) /\
      fc_lmsg c = terminalFlag (mapSegmentWith 110 cfg (asset 10 2) 10 58) /\
      fc_seg_nr c = 58.
Proof.
  apply (mapping_arithmetic (provider_at (125 # 1))
           (with_rotation (two_asset_config ".m4s" (segment_file 58))
              [asset 10 2; asset 100 2; asset 10 2]
              [segment_file 58; segment_file 58; segment_file 58] 110)
           (125 # 1)
           (asset 10 2) [asset 100 2; asset 10 2] (segment_file 58)
           [segment_file 58; segment_file 58] 10 [] 58).
  - reflexivity.
  - reflexivity.
  - reflexivity.
  - reflexivity.
  - vm_compute. discriminate.
  - intros very_last H. discriminate H.
  - vm_compute. discriminate.
  - vm_compute. discriminate.
  - discriminate.
Defined.

(** C6, as stated, fails: with start number 5 and terminal set [3], segment
    number 4 is above the maximum of the terminal set, and the answer is the
    error for a segment number before the first one. *)
Lemma beyond_last_hidden_by_start_number :
  let self := provider_at (40 # 1) in
  let cfg := with_last_segment_numbers
               (live_config ".m4s" (segment_file 4) 3600 4 5 0) [3] in
  terminal_max (last_segment_numbers cfg) = Some 3 /\
  3 < 4 /\
  outcome (process_media_segment self cfg (40 # 1))
  = Ok (ErrorResponse (TooEarlySegmentNumber 4 5)) /\
  forall very_last,
    outcome (process_media_segment self cfg (40 # 1))
    <> Ok (ErrorResponse (BeyondLastSegment 4 very_last)).
Proof.
  cbv zeta. split; [reflexivity|]. split; [lia|].
  split; [reflexivity|]. intros very_last. vm_compute. discriminate.
Qed.

(** C6, amended.  With effectiveStartNumber 1 for a configured start number
    of -1 and the configured number otherwise: a request for a number below
    effectiveStartNumber is answered with TooEarlySegmentNumber; a request
    for a number that is not below effectiveStartNumber and is above the
    maximum of a configured terminal set is answered with
    BeyondLastSegment. *)
Theorem segment_number_validation (self : DashProvider) (cfg : Config) (now_float : Q)
    (v0 : VodInfo) (vs : list VodInfo) (f : FileName) (fs : list FileName) (n : Z) :
  vod_infos cfg = v0 :: vs -> filenames cfg = f :: fs ->
  requested_seg_nr (seg_base f) (seg_duration v0) (get_timescale cfg) = Ok n ->
  (n < effectiveStartNumber (start_nr cfg) ->
     outcome (process_media_segment self cfg now_float)
     = Ok (ErrorResponse (TooEarlySegmentNumber n (effectiveStartNumber (start_nr cfg)))))
  /\
  (effectiveStartNumber (start_nr cfg) <= n ->
     forall m, terminal_max (last_segment_numbers cfg) = Some m -> m < n ->
     exists very_last,
       last_item (last_segment_numbers cfg) = Ok very_last /\
       outcome (process_media_segment self cfg now_float)
       = Ok (ErrorResponse (BeyondLastSegment n very_last))).
Proof.
  intros Hv Hf Hn.
  unfold process_media_segment.
  rewrite Hv. cbn [first]. rewrite mbind_lift_ok.
  rewrite Hf. cbn [first]. rewrite mbind_lift_ok.
  rewrite Hn, mbind_lift_ok.
  rewrite seg_start_nr_effective.
  split.
  - intros Hlt.
    destruct (Z.ltb_spec n (effectiveStartNumber (start_nr cfg))); [|lia].
    apply outcome_error_response.
  - intros Hge m Hm Hmn.
    destruct (Z.ltb_spec n (effectiveStartNumber (start_nr cfg))); [lia|].
    destruct (last_segment_numbers cfg) as [|x l] eqn:El; [discriminate|].
    destruct (last_item_some (x :: l)) as [vl [Evl _]]; [discriminate|].
    exists vl. split; [exact Evl|].
    rewrite Evl. cbn [bind].
    pose proof (last_item_le_max _ _ _ Evl Hm) as Hle.
    destruct (Z.gtb_spec n vl); [|lia].
    rewrite mbind_lift_ok. apply outcome_error_response.
Qed.

(** The amended C6 at start number -1 and terminal set [7; 9], for the
    segment numbers 0 and 12. *)
Lemma segment_number_validation_witness :
  outcome (process_media_segment (provider_at (40 # 1))
             (with_last_segment_numbers
                (live_config ".m4s" (segment_file 0) 3600 4 (-1) 0) [7; 9]) (40 # 1))
  = Ok (ErrorResponse (TooEarlySegmentNumber 0 1))
  /\
  exists very_last,
    last_item [7; 9] = Ok very_last /\
    outcome (process_media_segment (provider_at (40 # 1))
               (with_last_segment_numbers
                  (live_config ".m4s" (segment_file 12) 3600 4 (-1) 0) [7; 9]) (40 # 1))
    = Ok (ErrorResponse (BeyondLastSegment 12 very_last)).
Proof.
  split.
  - apply (proj1 (segment_number_validation (provider_at (40 # 1))
                    (with_last_segment_numbers
                       (live_config ".m4s" (segment_file 0) 3600 4 (-1) 0) [7; 9])
                    (40 # 1) (asset 3600 4) [] (segment_file 0) [] 0
                    eq_refl eq_refl eq_refl)).
    reflexivity.
  - apply (proj2 (segment_number_validation (provider_at (40 # 1))
                    (with_last_segment_numbers
                       (live_config ".m4s" (segment_file 12) 3600 4 (-1) 0) [7; 9])
                    (40 # 1) (asset 3600 4) [] (segment_file 12) [] 12
                    eq_refl eq_refl eq_refl) ltac:(discriminate) 9 eq_refl eq_refl).
Defined.



(** ** Fault injection *)

Lemma In_range (i n : Z) : In i (range n) <-> 0 <= i < n.
Proof.
  unfold range. rewrite in_map_iff. split.
  - intros [k [<- Hk]]. apply in_seq in Hk. lia.
  - intros Hi. exists (Z.to_nat i). split; [lia|]. apply in_seq. lia.
Qed.

Lemma down_in_up_down_true (total_dur dur1 phase : Z) (l : list Z) :
  down_in_up_down total_dur dur1 phase l = true <->
  exists i, In i l /\ i * total_dur + dur1 < phase <= (i + 1) * total_dur.
Proof.
  induction l as [|j l IH]; simpl.
  - split; [discriminate | intros [i [[] _]]].
  - destruct (Z.ltb_spec (j * total_dur + dur1) phase) as [H1|H1];
      destruct (Z.leb_spec phase ((j + 1) * total_dur)) as [H2|H2]; simpl.
    + split; [intros _; exists j; split; [left; reflexivity | lia] | reflexivity].
    + rewrite IH. split.
      * intros [i [Hin Hi]]. exists i. auto.
      * intros [i [[-> | Hin] Hi]]; [lia | exists i; auto].
    + rewrite IH. split.
      * intros [i [Hin Hi]]. exists i. auto.
      * intros [i [[-> | Hin] Hi]]; [lia | exists i; auto].
    + rewrite IH. split.
      * intros [i [Hin Hi]]. exists i. auto.
      * intros [i [[-> | Hin] Hi]]; [lia | exists i; auto].
Qed.

Lemma ceil_60_over_ok (n : Z) :
  n <> 0 -> Z.abs n < float_max_bound -> ceil_60_over n = Ok (ceil_div 60 n).
Proof.
  intros Hn Hb. unfold ceil_60_over.
  destruct (Z.leb_spec float_max_bound (Z.abs n)); [lia|].
  destruct (Z.eqb_spec n 0); [contradiction | reflexivity].
Qed.


Lemma serve_media_segment_outcome (self : DashProvider) (cfg : Config) (spec : string)
    (t : list Event) (r : Response) (down : bool) :
  multi_url cfg = [spec] ->
  process_media_segment self cfg (now_float self) = (t, Ok r) ->
  base_url_server_down spec (now self) = Ok down ->
  outcome (serve_media_segment self cfg)
  = Ok (if down then ErrorResponse (FaultInjected (now self)) else r).
Proof.
  intros Hm Hp Hd. unfold serve_media_segment.
  rewrite (outcome_mbind_ok _ _ t r Hp).
  rewrite Hm, Hd, mbind_lift_ok.
  destruct down.
  - unfold error_response. destruct (req self); reflexivity.
  - reflexivity.
Qed.



(** ** The media branch of parse_url *)

Lemma Qlt_bool_false (a b : Q) : (b <= a)%Q -> Qlt_bool a b = false.
Proof.
  intros H. unfold Qlt_bool. apply Qle_bool_iff in H. rewrite H. reflexivity.
Qed.

(** The integer part of the clock is above an integer only if the clock is. *)
Lemma int_of_float_above (x : Q) (c : Z) : c + 1 <= int_of_float x -> (inject_Z c <= x)%Q.
Proof.
  unfold int_of_float, Qle, inject_Z. cbn [Qnum Qden]. intros H.
  destruct x as [a b]. cbn [Qnum Qden] in *.
  pose proof (Z.quot_rem' a (Z.pos b)) as Hqr.
  pose proof (Z.rem_bound_abs a (Z.pos b) ltac:(lia)) as Hr.
  nia.
Qed.

Lemma serve_media_segment_pass (self : DashProvider) (cfg : Config)
    (t : list Event) (r : Response) :
  List.length (multi_url cfg) <> 1%nat ->
  process_media_segment self cfg (now_float self) = (t, Ok r) ->
  outcome (serve_media_segment self cfg) = Ok r.
Proof.
  intros Hm Hp. unfold serve_media_segment.
  rewrite (outcome_mbind_ok _ _ t r Hp).
  destruct (multi_url cfg) as [|s [|s' l]]; [reflexivity | | reflexivity].
  simpl in Hm. congruence.
Qed.

(** A media request past the availability tests of [parse_url], for a
    segment number within the configured bounds, is answered with segment
    data. *)
Lemma parse_url_media_accepted (self : DashProvider) (cfg : Config) (e : string) (n : Z) :
  ext cfg = ".m4s"%string ->
  vod_infos cfg <> [] ->
  Forall (fun v => 0 < wrap_seconds v /\ seg_duration v <> 0) (vod_infos cfg) ->
  filenames cfg = [mkFileName (NumberStem n) e] ->
  Qeq_bool (availability_time_offset_in_s cfg) (-1 # 1) = true ->
  (inject_Z (availability_start_time_in_s cfg) <= now_float self)%Q ->
  (forall aet, availability_end_time cfg = Some aet ->
               now self <= aet + EXTRA_TIME_AFTER_END_IN_S) ->
  (forall very_last, last_item (last_segment_numbers cfg) = Ok very_last -> n <= very_last) ->
  List.length (multi_url cfg) <> 1%nat ->
  loop_duration cfg <> 0 -> initial_durations cfg <> [] -> reps cfg <> [] ->
  effectiveStartNumber (start_nr cfg) <= n ->
  accepted (outcome (parse_url self cfg)) = true.
Proof.
  intros Hext Hv Hall Hf Hato Hgate Haet Hlast Hmu HL Hd Hr Hstart.
  assert (Ht : total_wrap (vod_infos cfg) <> 0).
  { assert (0 < total_wrap (vod_infos cfg)); [|lia].
    apply total_wrap_pos; [exact Hv|].
    eapply Forall_impl; [|exact Hall]. intros v [H _]. exact H. }
  destruct (sort_by_period_invariant
              (fun v => 0 < wrap_seconds v /\ seg_duration v <> 0)
              (fun f => f = mkFileName (NumberStem n) e) cfg (now self))
    as [vs [fs [sfa [E [Hvs [Hfs [HPvs HQfs]]]]]]];
    [exact Hv | rewrite Hf; discriminate | exact Ht | exact Hall
     | rewrite Hf; repeat constructor |].
  destruct vs as [|v0 vs]; [congruence|].
  destruct fs as [|f0 fs]; [congruence|].
  inversion HPvs as [|? ? [_ Hd0] _]; subst.
  inversion HQfs as [|? ? Hf0 _]; subst.
  destruct (initial_durations cfg) as [|d0 ds] eqn:Ed; [congruence|].
  unfold parse_url. rewrite E, mbind_lift_ok.
  cbn [ext with_rotation]. rewrite Hext.
  change (String.eqb ".m4s" ".mpd") with false.
  change (String.eqb ".m4s" ".mp4") with false.
  change (String.eqb ".m4s" ".m4s") with true. cbv iota.
  cbn [availability_time_offset_in_s with_rotation]. rewrite Hato.
  rewrite mbind_ret.
  cbn [availability_start_time_in_s with_rotation number_value].
  rewrite (Qlt_bool_false _ _ Hgate).
  set (cfg' := with_rotation cfg (v0 :: vs) (mkFileName (NumberStem n) e :: fs) sfa).
  assert (Hserve : accepted (outcome (serve_media_segment self cfg')) = true).
  { pose proof (process_media_segment_mapped self cfg' (now_float self) v0 vs
                  (mkFileName (NumberStem n) e) fs d0 ds n
                  eq_refl eq_refl Ed eq_refl Hstart Hlast HL Hd0) as Hp.
    cbv zeta in Hp.
    destruct (process_media_segment self cfg' (now_float self)) as [t o] eqn:Epm.
    match type of Hp with
    | _ = dispatch_media_segment self cfg' ?vod_nr ?nr ?e1 ?off ?lmsg =>
        destruct (dispatch_media_segment_calls self cfg' vod_nr nr e1 off lmsg)
          as [resp [Eo [Hacc _]]]; [discriminate | exact Hr |];
        rewrite <- Hp in Eo
    end.
    unfold outcome in Eo. cbn [snd] in Eo. subst o.
    rewrite (serve_media_segment_pass self cfg' t resp Hmu Epm).
    exact Hacc. }
  change (availability_end_time cfg') with (availability_end_time cfg).
  destruct (availability_end_time cfg) as [aet|] eqn:Ea; [|exact Hserve].
  specialize (Haet aet eq_refl).
  destruct (Z.gtb_spec (now self) (aet + EXTRA_TIME_AFTER_END_IN_S)); [lia | exact Hserve].
Qed.

(** C3, as stated, fails: in Scenario A the request for segment number 10 at
    [now] = 40 is answered with segment data, not with the too-early error. *)
Lemma scenario_A_segment_10_is_served :
  let cfg := live_config ".m4s" (segment_file 10) 3600 4 0 (-1 # 1) in
  accepted (outcome (handle_request test_url cfg "/content" (40 # 1) false)) = true /\
  forall name diff,
    outcome (handle_request test_url cfg "/content" (40 # 1) false)
    <> Ok (ErrorResponse (TooEarlyMedia name diff)).
Proof.
  cbv zeta. split; [reflexivity|]. intros name diff. vm_compute. discriminate.
Qed.

(** C3, amended.  Scenario A: availabilityStartTime 0, segment duration 4,
    start number 0, availabilityTimeOffset -1, [now] = 40.  A media request
    for each segment number 0 through 9 is accepted, and so is a request for
    segment number 10: with availabilityTimeOffset -1 the only too-early test
    compares [now] with the availability start time. *)
Theorem scenario_A_accepts (u : string) (us : list string) (cfg : Config)
    (dir : string) (req : bool) (e : string) (n : Z) :
  ext cfg = ".m4s"%string ->
  availability_start_time_in_s cfg = 0 ->
  availability_time_offset_in_s cfg = (-1 # 1)%Q ->
  start_nr cfg = 0 ->
  vod_infos cfg <> [] ->
  Forall (fun v => 0 < wrap_seconds v /\ seg_duration v = 4) (vod_infos cfg) ->
  filenames cfg = [mkFileName (NumberStem n) e] ->
  availability_end_time cfg = None ->
  last_segment_numbers cfg = [] -> multi_url cfg = [] ->
  loop_duration cfg <> 0 -> initial_durations cfg <> [] -> reps cfg <> [] ->
  0 <= n <= 10 ->
  accepted (outcome (handle_request (u :: us) cfg dir (40 # 1) req)) = true.
Proof.
  intros Hext Hast Hato Hsn Hv Hall Hf Haet Hlast Hmu HL Hd Hr Hn.
  unfold handle_request. cbn [new_DashProvider first bind]. rewrite mbind_lift_ok.
  apply (parse_url_media_accepted _ cfg e n); try assumption.
  - eapply Forall_impl; [|exact Hall]. intros v [H1 H2]. split; [exact H1 | lia].
  - rewrite Hato. reflexivity.
  - rewrite Hast. cbn [now_float new_DashProvider]. discriminate.
  - intros aet Ha. congruence.
  - intros vl Hvl. rewrite Hlast in Hvl. discriminate.
  - rewrite Hmu. discriminate.
  - rewrite Hsn. cbn. lia.
Qed.

(** The amended C3 at segment number 10 of a stream of one asset of 3600
    seconds. *)
Lemma scenario_A_accepts_witness :
  accepted (outcome (handle_request test_url
                       (live_config ".m4s" (segment_file 10) 3600 4 0 (-1 # 1))
                       "/content" (40 # 1) true)) = true.
Proof.
  apply (scenario_A_accepts "livesim" ["testpic"; "V1"; "seg.m4s"]%string
           (live_config ".m4s" (segment_file 10) 3600 4 0 (-1 # 1))
           "/content" true ".m4s" 10).
  - reflexivity.
  - reflexivity.
  - reflexivity.
  - reflexivity.
  - discriminate.
  - repeat constructor.
  - reflexivity.
  - reflexivity.
  - reflexivity.
  - reflexivity.
  - discriminate.
  - discriminate.
  - discriminate.
  - lia.
Defined.

(** ** Uncaught failures *)

(** C8 (the code departs from it).  When the wrap durations of the catalog
    sum to zero, [divmod] in [sort_by_period] raises [ZeroDivisionError];
    nothing catches it, no collaborator is called and no error response is
    built. *)
Theorem zero_total_raises (u : string) (us : list string) (cfg : Config) (dir : string)
    (clock : Q) (req : bool) :
  total_wrap (vod_infos cfg) = 0 ->
  handle_request (u :: us) cfg dir clock req = ([], Raise ZeroDivisionError).
Proof.
  intros Ht. unfold handle_request. cbn [new_DashProvider first bind].
  rewrite mbind_lift_ok. unfold parse_url, sort_by_period.
  rewrite Ht. reflexivity.
Qed.

(** C8 at a catalog of one asset whose wrap duration is 0. *)
Lemma zero_total_raises_witness :
  handle_request test_url (live_config ".m4s" (segment_file 3) 0 4 0 0)
    "/content" (40 # 1) true
  = ([], Raise ZeroDivisionError).
Proof.
  apply (zero_total_raises "livesim" ["testpic"; "V1"; "seg.m4s"]%string
           (live_config ".m4s" (segment_file 3) 0 4 0 0) "/content" (40 # 1) true).
  reflexivity.
Defined.

(** C9 (the code departs from it on the media path).  With three
    representations the init path answers with the error for a bad number of
    representations, and the media path rewrites the first two and multiplexes
    them.  With no representation the init path answers with that error, and
    the media path raises [IndexError]. *)
Theorem media_dispatch_any_representation_count :
  let self := provider_at (40 # 1) in
  let three := with_reps (live_config ".m4s" (segment_file 3) 3600 4 0 0)
                 [video_rep; audio_rep; text_rep] in
  let none := with_reps (live_config ".m4s" (segment_file 3) 3600 4 0 0) [] in
  outcome (process_init_segment self (request three ".mp4" [init_file_name]))
  = Ok (ErrorResponse (InvalidRepresentationCount 3)) /\
  (exists seg1 seg2,
     process_media_segment self three (40 # 1)
     = ([MediaSegmentFilter_filter seg1; MediaSegmentFilter_filter seg2;
         MultiplexMediaSegments_mux seg1 seg2],
        Ok (MuxedMedia seg1 seg2)) /\
     fc_timescale seg1 = rep_timescale video_rep /\
     fc_timescale seg2 = rep_timescale audio_rep) /\
  outcome (process_init_segment self (request none ".mp4" [init_file_name]))
  = Ok (ErrorResponse (InvalidRepresentationCount 0)) /\
  process_media_segment self none (40 # 1) = ([], Raise IndexError) /\
  handle_request test_url three "/content" (40 # 1) false
  = (events (process_media_segment self three (40 # 1)) ++ [Sleep_500ms],
     outcome (process_media_segment self three (40 # 1))).
Proof.
  cbv zeta. split; [reflexivity|]. split.
  - eexists. eexists. split; [reflexivity|]. split; reflexivity.
  - split; [reflexivity|]. split; reflexivity.
Qed.

(** ** Manifest periods and media requests *)

Lemma floordiv_inv (a b q : Z) : floordiv a b = Ok q -> b <> 0 /\ q = a / b.
Proof.
  unfold floordiv. destruct (Z.eqb_spec b 0); [discriminate|].
  intros H. injection H as <-. auto.
Qed.

(** Every period of the manifest comes from an asset of the rotation: its
    [duration] is the segment duration of the asset, and its [startNumber]
    is the configured start number plus the number of whole segments before
    its start. *)
Lemma period_data_of_assets (sn : Z) (vs : list VodInfo) :
  forall (start : Z) (fns : list Path) (bd : list BaseData) (rf : list Path)
         (pd : list PeriodData) (p : PeriodData),
    build_base_data sn start vs fns = Ok (bd, rf) ->
    generate_period_data bd = Ok pd ->
    In p pd ->
    exists v, In v vs /\ duration p = seg_duration v /\ seg_duration v <> 0 /\
              startNumber p = sn + start_s p / duration p.
Proof.
  induction vs as [|v vs IH]; intros start fns bd rf pd p Hb Hg Hin.
  - simpl in Hb. injection Hb as <- <-. simpl in Hg. injection Hg as <-. destruct Hin.
  - simpl in Hb.
    destruct (floordiv (video_total_duration v) (video_timescale v)) as [t|] eqn:Et;
      [|discriminate].
    cbn [bind] in Hb.
    destruct (first fns) as [f|] eqn:Ef; [|discriminate].
    cbn [bind] in Hb.
    destruct (build_base_data sn (start + t) vs (List.tl fns)) as [[bd' rf']|] eqn:Er;
      [|discriminate].
    cbn [bind] in Hb. injection Hb as <- <-.
    simpl in Hg.
    destruct (floordiv start (seg_duration v)) as [q|] eqn:Eq; [|discriminate].
    cbn [bind] in Hg.
    destruct (generate_period_data bd') as [pd'|] eqn:Eg; [|discriminate].
    cbn [bind] in Hg. injection Hg as <-.
    destruct Hin as [<- | Hin].
    + apply floordiv_inv in Eq. destruct Eq as [Hnz ->].
      exists v. cbn. auto.
    + destruct (IH _ _ _ _ _ p Er Eg Hin) as [w [Hw Hrest]].
      exists w. split; [right; exact Hw | exact Hrest].
Qed.

(** A segment at or after the configured start number that a period
    advertises as available becomes so at least one segment duration after
    the availability start time. *)
Lemma advertised_after_start (ast now k sn : Z) (p : PeriodData) :
  0 < duration p -> startNumber p = sn + start_s p / duration p -> sn <= k ->
  advertised_in ast now k p = true -> ast + 1 <= now.
Proof.
  intros Hd Hsn Hk Hadv. unfold advertised_in in Hadv.
  apply andb_prop in Hadv. destruct Hadv as [_ H2]. apply Z.leb_le in H2.
  rewrite Hsn in H2.
  pose proof (Z.div_mod (start_s p) (duration p) ltac:(lia)) as Hdm.
  pose proof (Z.mod_pos_bound (start_s p) (duration p) Hd) as Hm.
  nia.
Qed.

Lemma effectiveStartNumber_ge (sn : Z) : sn <= effectiveStartNumber sn.
Proof. unfold effectiveStartNumber. destruct (Z.eqb_spec sn (-1)); lia. Qed.

(** C1, as stated, fails in both directions.  For a stream of one asset of
    3600 seconds in segments of 4 seconds, at [now] = 40: with start number
    0 the media path serves segment number 1000, which no period of the
    manifest advertises as available; with start number -1 the manifest
    advertises segment number 0, which the media path rejects as before the
    first one. *)
Lemma manifest_and_media_disagree :
  let cfg := live_config ".mpd" manifest_file 3600 4 0 (-1 # 1) in
  let cfg' := live_config ".mpd" manifest_file 3600 4 (-1) (-1 # 1) in
  (exists fns periods,
     outcome (handle_request test_url cfg "/content" (40 # 1) false)
     = Ok (MpdXml fns periods) /\
     advertised periods (availability_start_time_in_s cfg) 40 1000 = false /\
     accepted (outcome (handle_request test_url
                          (request cfg ".m4s" [segment_file 1000])
                          "/content" (40 # 1) false)) = true) /\
  (exists fns periods,
     outcome (handle_request test_url cfg' "/content" (40 # 1) false)
     = Ok (MpdXml fns periods) /\
     advertised periods (availability_start_time_in_s cfg') 40 0 = true /\
     outcome (handle_request test_url
                (request cfg' ".m4s" [segment_file 0]) "/content" (40 # 1) false)
     = Ok (ErrorResponse (TooEarlySegmentNumber 0 1))).
Proof.
  cbv zeta. split.
  - eexists. eexists. split; [reflexivity|]. split; reflexivity.
  - eexists. eexists. split; [reflexivity|]. split; reflexivity.
Qed.

(** C1, amended.  For a configuration with availabilityTimeOffset -1,
    positive wrap and segment durations, no fault window, and a mapping that
    is defined (loop duration not zero, a first initial-duration boundary, a
    representation): every segment number that is at least the effective
    start number, not above the last terminal number and that the period
    arithmetic of the manifest advertises as available at [now] is accepted
    by the media path at that same [now], as long as [now] is not more than
    60 seconds after a configured availability end time. *)
Theorem advertised_segments_are_served (u : string) (us : list string) (cfg : Config)
    (dir : string) (clock : Q) (req : bool) (mpds : list FileName) (e : string) (k : Z)
    (fns : list Path) (periods : list PeriodData) :
  vod_infos cfg <> [] ->
  Forall (fun v => 0 < wrap_seconds v /\ 0 < seg_duration v) (vod_infos cfg) ->
  mpds <> [] ->
  availability_time_offset_in_s cfg = (-1 # 1)%Q ->
  (forall aet, availability_end_time cfg = Some aet ->
               int_of_float clock <= aet + EXTRA_TIME_AFTER_END_IN_S) ->
  (forall very_last, last_item (last_segment_numbers cfg) = Ok very_last -> k <= very_last) ->
  List.length (multi_url cfg) <> 1%nat ->
  loop_duration cfg <> 0 -> initial_durations cfg <> [] -> reps cfg <> [] ->
  outcome (handle_request (u :: us) (request cfg ".mpd" mpds) dir clock req)
  = Ok (MpdXml fns periods) ->
  advertised periods (availability_start_time_in_s cfg) (int_of_float clock) k = true ->
  effectiveStartNumber (start_nr cfg) <= k ->
  accepted (outcome (handle_request (u :: us)
                       (request cfg ".m4s" [mkFileName (NumberStem k) e]) dir clock req))
  = true.
Proof.
  intros Hv Hall Hmpds Hato Haet Hlast Hmu HL Hd Hr Hmpd Hadv Hstart.
  assert (Hnow : availability_start_time_in_s cfg + 1 <= int_of_float clock).
  { unfold handle_request in Hmpd. cbn [new_DashProvider first bind] in Hmpd.
    rewrite mbind_lift_ok in Hmpd. unfold parse_url in Hmpd. cbn [now] in Hmpd.
    assert (Ht : total_wrap (vod_infos (request cfg ".mpd" mpds)) <> 0).
    { assert (0 < total_wrap (vod_infos cfg)); [|cbn [vod_infos request]; lia].
      apply total_wrap_pos; [exact Hv|].
      eapply Forall_impl; [|exact Hall]. intros v [H _]. exact H. }
    destruct (sort_by_period_invariant
                (fun v => 0 < wrap_seconds v /\ 0 < seg_duration v) (fun _ => True)
                (request cfg ".mpd" mpds)
                (int_of_float clock))
      as [vs [fs [sfa [E [_ [_ [HPvs _]]]]]]];
      [exact Hv | exact Hmpds | exact Ht | exact Hall
       | apply Forall_forall; auto |].
    rewrite E, mbind_lift_ok in Hmpd.
    cbn [ext with_rotation request] in Hmpd.
    change (String.eqb ".mpd" ".mpd") with true in Hmpd. cbv iota in Hmpd.
    unfold generate_dynamic_mpd in Hmpd.
    cbn [start_nr start_from_ast vod_infos filenames content_name with_rotation request]
      in Hmpd.
    match type of Hmpd with
    | context [build_base_data ?sn ?st ?l ?f] =>
        destruct (build_base_data sn st l f) as [[bd rf]|] eqn:Eb
    end; [|discriminate Hmpd].
    rewrite mbind_lift_ok in Hmpd.
    destruct (generate_period_data bd) as [pd|] eqn:Eg; [|discriminate Hmpd].
    rewrite mbind_lift_ok in Hmpd.
    cbn in Hmpd. injection Hmpd as <- <-.
    unfold advertised in Hadv. apply existsb_exists in Hadv.
    destruct Hadv as [p [Hin Hp]].
    destruct (period_data_of_assets _ _ _ _ _ _ _ p Eb Eg Hin)
      as [v [Hvin [Hdur [_ Hsn]]]].
    rewrite Forall_forall in HPvs. destruct (HPvs v Hvin) as [_ Hpos].
    apply (advertised_after_start _ _ k (start_nr cfg) p);
      [rewrite Hdur; exact Hpos | exact Hsn
       | pose proof (effectiveStartNumber_ge (start_nr cfg)); lia | exact Hp]. }
  unfold handle_request. cbn [new_DashProvider first bind]. rewrite mbind_lift_ok.
  apply (parse_url_media_accepted _ _ e k); cbn [request ext vod_infos filenames
    availability_time_offset_in_s availability_start_time_in_s availability_end_time
    last_segment_numbers multi_url loop_duration initial_durations reps start_nr];
    try assumption; try reflexivity.
  - eapply Forall_impl; [|exact Hall]. intros v [H1 H2]. split; [exact H1 | lia].
  - rewrite Hato. reflexivity.
  - apply int_of_float_above. exact Hnow.
Qed.

(** The amended C1 at segment number 9, which the manifest advertises at
    [now] = 40. *)
Lemma advertised_segments_are_served_witness :
  accepted (outcome (handle_request test_url
                       (request (live_config ".mpd" manifest_file 3600 4 0 (-1 # 1))
                          ".m4s" [mkFileName (NumberStem 9) ".m4s"])
                       "/content" (40 # 1) false))
  = true.
Proof.
  apply (advertised_segments_are_served "livesim" ["testpic"; "V1"; "seg.m4s"]%string
           (live_config ".mpd" manifest_file 3600 4 0 (-1 # 1)) "/content" (40 # 1) false
           [manifest_file] ".m4s" 9
           [mkPath ["/content"; "testpic"]%string manifest_file]
           [mkPeriodData 0 3600 0 0 4 0 0]).
  - discriminate.
  - repeat constructor.
  - discriminate.
  - reflexivity.
  - intros aet H. discriminate H.
  - intros very_last H. discriminate H.
  - discriminate.
  - discriminate.
  - discriminate.
  - discriminate.
  - reflexivity.
  - reflexivity.
  - vm_compute. discriminate.
Defined.


(** * Further properties of the code *)

(** ** The manifest path *)

Lemma floordiv_raise (a b : Z) : b = 0 -> floordiv a b = Raise ZeroDivisionError.
Proof. intros ->. reflexivity. Qed.

(** What [generate_dynamic_mpd] and [generate_period_data] compute when both
    return. *)
Lemma manifest_periods (sn : Z) (vs : list VodInfo) :
  forall (start : Z) (fns : list Path) (bd : list BaseData) (rf : list Path)
         (pd : list PeriodData),
    build_base_data sn start vs fns = Ok (bd, rf) ->
    generate_period_data bd = Ok pd ->
    rf = firstn (List.length vs) fns /\
    (List.length vs <= List.length fns)%nat /\
    contiguous start pd = true /\
    Forall2 (fun p v =>
               video_timescale v <> 0 /\ seg_duration v <> 0 /\
               duration p = seg_duration v /\
               periodDuration p = video_total_duration v / video_timescale v /\
               presentationTimeOffset p = start_s p * video_timescale v /\
               startNumber p = sn + start_s p / seg_duration v /\
               pd_id p = start_s p /\ pd_start p = start_s p) pd vs.
Proof.
  induction vs as [|v vs IH]; intros start fns bd rf pd Hb Hg.
  - simpl in Hb. injection Hb as <- <-. simpl in Hg. injection Hg as <-.
    simpl. repeat split; [lia | constructor].
  - simpl in Hb.
    destruct (floordiv (video_total_duration v) (video_timescale v)) as [t|] eqn:Et;
      [|discriminate].
    cbn [bind] in Hb.
    destruct fns as [|f fns]; [discriminate|]. cbn [first bind List.tl] in Hb.
    destruct (build_base_data sn (start + t) vs fns) as [[bd' rf']|] eqn:Er;
      [|discriminate].
    cbn [bind] in Hb. injection Hb as <- <-.
    simpl in Hg.
    destruct (floordiv start (seg_duration v)) as [q|] eqn:Eq; [|discriminate].
    cbn [bind] in Hg.
    destruct (generate_period_data bd') as [pd'|] eqn:Eg; [|discriminate].
    cbn [bind] in Hg. injection Hg as <-.
    destruct (IH _ _ _ _ _ Er Eg) as [Hrf [Hlen [Hc HF]]].
    apply floordiv_inv in Et. destruct Et as [Hts ->].
    apply floordiv_inv in Eq. destruct Eq as [Hsd ->].
    split; [simpl; rewrite Hrf; reflexivity|].
    split; [simpl; lia|].
    split.
    + cbn [contiguous start_s periodDuration]. rewrite Z.eqb_refl. exact Hc.
    + constructor; [cbn; auto 10 | exact HF].
Qed.




(** The loop of [generate_dynamic_mpd] ends when no video timescale is zero
    and there is a file name for each asset. *)
Lemma build_base_data_total (sn : Z) (vs : list VodInfo) :
  forall (start : Z) (fns : list Path),
    Forall (fun v => video_timescale v <> 0) vs ->
    (List.length vs <= List.length fns)%nat ->
    exists bd, build_base_data sn start vs fns = Ok (bd, firstn (List.length vs) fns).
Proof.
  induction vs as [|v vs IH]; intros start fns Hall Hlen.
  - exists []. reflexivity.
  - inversion Hall as [|? ? Hts Hrest]; subst.
    destruct fns as [|f fns]; [simpl in Hlen; lia|].
    destruct (IH (start + video_total_duration v / video_timescale v) fns Hrest)
      as [bd Eb]; [simpl in Hlen; lia|].
    eexists. simpl. rewrite (floordiv_ok _ _ Hts). cbn [bind]. rewrite Eb. cbn [bind].
    reflexivity.
Qed.

(** [generate_period_data] raises nothing but [ZeroDivisionError]. *)
Lemma generate_period_data_raise (bd : list BaseData) (e : exn) :
  generate_period_data bd = Raise e -> e = ZeroDivisionError.
Proof.
  revert e. induction bd as [|b bd IH]; intros e Eg; [discriminate|].
  simpl in Eg. unfold floordiv in Eg.
  destruct (bd_segDuration b =? 0); [cbn in Eg; congruence|].
  cbn [bind] in Eg.
  destruct (generate_period_data bd) as [pd|e'] eqn:E'; [discriminate|].
  cbn in Eg. injection Eg as <-. apply IH. reflexivity.
Qed.

(** The loop of [generate_dynamic_mpd] raises nothing but
    [ZeroDivisionError] and [IndexError]. *)
Lemma build_base_data_raise (sn : Z) (vs : list VodInfo) :
  forall (start : Z) (fns : list Path) (e : exn),
    build_base_data sn start vs fns = Raise e ->
    e = ZeroDivisionError \/ e = IndexError.
Proof.
  induction vs as [|v vs IH]; intros start fns e Eb; [discriminate|].
  simpl in Eb. unfold floordiv in Eb.
  destruct (video_timescale v =? 0); [cbn in Eb; left; congruence|].
  cbn [bind] in Eb.
  destruct fns as [|f fns]; [cbn in Eb; right; congruence|].
  cbn [first bind List.tl] in Eb.
  destruct (build_base_data sn (start + video_total_duration v / video_timescale v) vs fns)
    as [[bd rf]|e'] eqn:E'; [discriminate|].
  cbn in Eb. injection Eb as <-. eapply IH. exact E'.
Qed.

(** When the loop of [generate_dynamic_mpd] ends, no video timescale is zero
    and there is a file name for each asset. *)
Lemma build_base_data_inv (sn : Z) (vs : list VodInfo) :
  forall (start : Z) (fns : list Path) (bd : list BaseData) (rf : list Path),
    build_base_data sn start vs fns = Ok (bd, rf) ->
    Forall (fun v => video_timescale v <> 0) vs /\
    (List.length vs <= List.length fns)%nat.
Proof.
  induction vs as [|v vs IH]; intros start fns bd rf Hb.
  - split; [constructor | simpl; lia].
  - simpl in Hb.
    destruct (floordiv (video_total_duration v) (video_timescale v)) as [t|] eqn:Et;
      [|discriminate].
    cbn [bind] in Hb.
    destruct fns as [|f fns]; [discriminate|]. cbn [first bind List.tl] in Hb.
    destruct (build_base_data sn (start + t) vs fns) as [[bd' rf']|] eqn:Er;
      [|discriminate].
    destruct (IH _ _ _ _ Er) as [Hall Hlen].
    apply floordiv_inv in Et. destruct Et as [Hts _].
    split; [constructor; assumption | simpl; lia].
Qed.

(** X2.  [generate_dynamic_mpd] fails in two ways, and in neither is the
    [process] of the manifest processor called.  With a zero video timescale
    or fewer manifest file names than assets it raises [ZeroDivisionError]
    or [IndexError] before the manifest processor is constructed.  With
    video timescales that are not zero, a file name for each asset and a
    zero segment duration, [generate_period_data] raises
    [ZeroDivisionError] when the manifest processor has been constructed on
    the file names of the assets. *)
Theorem manifest_failure (cfg : Config) (mpd_filenames : list Path) :
  let used := firstn (List.length (vod_infos cfg)) mpd_filenames in
  (Exists (fun v => video_timescale v = 0) (vod_infos cfg) \/
   (List.length mpd_filenames < List.length (vod_infos cfg))%nat ->
   generate_dynamic_mpd cfg mpd_filenames = ([], Raise ZeroDivisionError) \/
   generate_dynamic_mpd cfg mpd_filenames = ([], Raise IndexError))
  /\
  (Forall (fun v => video_timescale v <> 0) (vod_infos cfg) ->
   (List.length (vod_infos cfg) <= List.length mpd_filenames)%nat ->
   Exists (fun v => seg_duration v = 0) (vod_infos cfg) ->
   generate_dynamic_mpd cfg mpd_filenames
   = ([MpdProcessor_new used], Raise ZeroDivisionError)).
Proof.
  cbv zeta. unfold generate_dynamic_mpd. split.
  - intros Hbad.
    destruct (build_base_data (start_nr cfg) (start_from_ast cfg) (vod_infos cfg)
                mpd_filenames) as [[bd rf]|e] eqn:Eb.
    + exfalso. destruct (build_base_data_inv _ _ _ _ _ _ Eb) as [Hall Hlen].
      destruct Hbad as [Hex | Hlt]; [|lia].
      apply Exists_exists in Hex. destruct Hex as [v [Hin Hv]].
      rewrite Forall_forall in Hall. exact (Hall v Hin Hv).
    + cbn. destruct (build_base_data_raise _ _ _ _ _ Eb) as [-> | ->]; auto.
  - intros Hts Hlen Hex.
    destruct (build_base_data_total (start_nr cfg) (vod_infos cfg) (start_from_ast cfg)
                mpd_filenames Hts Hlen) as [bd Eb].
    rewrite Eb, mbind_lift_ok.
    destruct (generate_period_data bd) as [pd|e] eqn:Eg.
    + exfalso.
      destruct (manifest_periods _ _ _ _ _ _ _ Eb Eg) as [_ [_ [_ HF]]].
      apply Exists_exists in Hex. destruct Hex as [v [Hin Hv]].
      assert (Hgood : Forall (fun v => seg_duration v <> 0) (vod_infos cfg)).
      { clear - HF. induction HF as [|p v pd vs H _ IH]; constructor; [|exact IH].
        destruct H as [_ [H2 _]]. exact H2. }
      rewrite Forall_forall in Hgood. exact (Hgood v Hin Hv).
    + rewrite (generate_period_data_raise _ _ Eg). reflexivity.
Qed.

(** X2 at a catalog of one asset with a segment duration of zero. *)
Lemma manifest_failure_witness :
  generate_dynamic_mpd (live_config ".mpd" manifest_file 3600 0 0 0)
    [mkPath ["a"%string] manifest_file]
  = ([MpdProcessor_new [mkPath ["a"%string] manifest_file]], Raise ZeroDivisionError).
Proof.
  apply (proj2 (manifest_failure (live_config ".mpd" manifest_file 3600 0 0 0)
                  [mkPath ["a"%string] manifest_file])).
  - repeat constructor; discriminate.
  - simpl. lia.
  - constructor. reflexivity.
Defined.

Lemma contiguous_next (pd : list PeriodData) :
  forall (start : Z) (i : nat) (p q : PeriodData),
    contiguous start pd = true ->
    nth_error pd i = Some p -> nth_error pd (S i) = Some q ->
    start_s q = start_s p + periodDuration p.
Proof.
  induction pd as [|a pd IH]; intros start i p q Hc Hp Hq.
  - destruct i; discriminate.
  - simpl in Hc. apply andb_prop in Hc. destruct Hc as [Ha Hc].
    apply Z.eqb_eq in Ha.
    destruct i as [|i].
    + simpl in Hp. injection Hp as <-. simpl in Hq.
      destruct pd as [|b pd]; [discriminate|]. simpl in Hq. injection Hq as <-.
      simpl in Hc. apply andb_prop in Hc. destruct Hc as [Hb _].
      apply Z.eqb_eq in Hb. lia.
    + simpl in Hp. change (nth_error (a :: pd) (S (S i))) with (nth_error pd (S i)) in Hq.
      exact (IH _ _ _ _ Hc Hp Hq).
Qed.

(** X3.  In the period list of a manifest, when a period lasts a whole
    number of its segments and the next period has the same segment
    duration, the start number of the next period is the start number of the
    period plus the number of its segments: the numbering goes on without a
    gap or an overlap. *)
Theorem segment_numbers_continue (cfg : Config) (mpd_filenames used : list Path)
    (t : list Event) (periods : list PeriodData) (i : nat) (p q : PeriodData) :
  generate_dynamic_mpd cfg mpd_filenames = (t, Ok (MpdXml used periods)) ->
  nth_error periods i = Some p -> nth_error periods (S i) = Some q ->
  duration q = duration p -> periodDuration p mod duration p = 0 ->
  startNumber q = startNumber p + periodDuration p / duration p.
Proof.
  intros Hg Hp Hq Hd Hm.
  unfold generate_dynamic_mpd in Hg.
  destruct (build_base_data (start_nr cfg) (start_from_ast cfg) (vod_infos cfg)
              mpd_filenames) as [[bd rf]|e] eqn:Eb; [|discriminate Hg].
  rewrite mbind_lift_ok in Hg.
  destruct (generate_period_data bd) as [pd|e] eqn:Eg; [|discriminate Hg].
  rewrite mbind_lift_ok in Hg. cbn in Hg. injection Hg as _ _ <-.
  destruct (manifest_periods _ _ _ _ _ _ _ Eb Eg) as [_ [_ [Hc _]]].
  pose proof (contiguous_next _ _ _ _ _ Hc Hp Hq) as Hnext.
  destruct (period_data_of_assets _ _ _ _ _ _ _ p Eb Eg (nth_error_In _ _ Hp))
    as [v [_ [Hdv [Hnz Hsp]]]].
  destruct (period_data_of_assets _ _ _ _ _ _ _ q Eb Eg (nth_error_In _ _ Hq))
    as [w [_ [_ [_ Hsq]]]].
  rewrite Hsq, Hsp, Hd, Hnext.
  assert (HD : duration p <> 0) by (rewrite Hdv; exact Hnz).
  pose proof (Z.div_mod (periodDuration p) (duration p) HD) as Hdm.
  rewrite Hm in Hdm.
  replace (start_s p + periodDuration p)
    with (start_s p + (periodDuration p / duration p) * duration p) by lia.
  rewrite Z_div_plus_full by exact HD. lia.
Qed.

(** X3 at the first two periods of a rotation of a 10 s and a 100 s asset,
    eleven seconds after the availability start time. *)
Lemma segment_numbers_continue_witness :
  startNumber (mkPeriodData 0 10 0 0 2 0 0)
  = startNumber (mkPeriodData (-100) 100 (-100) (-50) 2 (-9000000) (-100))
    + periodDuration (mkPeriodData (-100) 100 (-100) (-50) 2 (-9000000) (-100))
      / duration (mkPeriodData (-100) 100 (-100) (-50) 2 (-9000000) (-100)).
Proof.
  apply (segment_numbers_continue
           (with_rotation (two_asset_config ".mpd" manifest_file)
              [asset 100 2; asset 10 2; asset 100 2]
              [manifest_file; manifest_file; manifest_file] (-100))
           [mkPath ["a"%string] manifest_file; mkPath ["b"%string] manifest_file;
            mkPath ["c"%string] manifest_file]
           [mkPath ["a"%string] manifest_file; mkPath ["b"%string] manifest_file;
            mkPath ["c"%string] manifest_file]
           [MpdProcessor_new
              [mkPath ["a"%string] manifest_file; mkPath ["b"%string] manifest_file;
               mkPath ["c"%string] manifest_file];
            MpdProcessor_process
              [mkPath ["a"%string] manifest_file; mkPath ["b"%string] manifest_file;
               mkPath ["c"%string] manifest_file]
              [mkPeriodData (-100) 100 (-100) (-50) 2 (-9000000) (-100);
               mkPeriodData 0 10 0 0 2 0 0;
               mkPeriodData 10 100 10 5 2 900000 10]]
           [mkPeriodData (-100) 100 (-100) (-50) 2 (-9000000) (-100);
            mkPeriodData 0 10 0 0 2 0 0;
            mkPeriodData 10 100 10 5 2 900000 10]
           0%nat).
  - reflexivity.
  - reflexivity.
  - reflexivity.
  - reflexivity.
  - reflexivity.
Defined.

(** ** The branches of parse_url *)

Lemma sorted_config (cfg : Config) (now : Z) :
  vod_infos cfg <> [] -> filenames cfg <> [] -> total_wrap (vod_infos cfg) <> 0 ->
  exists vs fs sfa, sort_by_period cfg now = Ok (with_rotation cfg vs fs sfa) /\
                    vs <> [] /\ Forall (fun v => In v (vod_infos cfg)) vs /\
                    Forall (fun f => In f (filenames cfg)) fs /\ fs <> [].
Proof.
  intros Hv Hf Ht.
  destruct (sort_by_period_invariant (fun v => In v (vod_infos cfg))
              (fun f => In f (filenames cfg)) cfg now Hv Hf Ht)
    as [vs [fs [sfa [E [H1 [H2 [H3 H4]]]]]]];
    [apply Forall_forall; auto | apply Forall_forall; auto |].
  exists vs, fs, sfa. auto.
Qed.

(** X4.  For a request whose extension is none of ".mpd", ".mp4" and ".m4s"
    (and a catalog that [sort_by_period] can rotate) [parse_url] answers with
    the plain text about the unknown extension, not with an error response,
    and neither writes to the log nor calls a collaborator. *)
Theorem unknown_extension_is_plain_text (self : DashProvider) (cfg : Config) :
  vod_infos cfg <> [] -> filenames cfg <> [] -> total_wrap (vod_infos cfg) <> 0 ->
  ext cfg <> ".mpd"%string -> ext cfg <> ".mp4"%string -> ext cfg <> ".m4s"%string ->
  parse_url self cfg = ([], Ok (UnknownFileExtension (ext cfg))).
Proof.
  intros Hv Hf Ht H1 H2 H3.
  destruct (sorted_config cfg (now self) Hv Hf Ht) as [vs [fs [sfa [E _]]]].
  unfold parse_url. rewrite E, mbind_lift_ok. cbn [ext with_rotation].
  apply String.eqb_neq in H1, H2, H3. rewrite H1, H2, H3. reflexivity.
Qed.

(** X4 at a request for a JPEG file. *)
Lemma unknown_extension_is_plain_text_witness :
  parse_url (provider_at (40 # 1))
    (live_config ".jpg" (mkFileName (WordStem "thumb") ".jpg") 3600 4 0 0)
  = ([], Ok (UnknownFileExtension ".jpg")).
Proof.
  apply (unknown_extension_is_plain_text (provider_at (40 # 1))
           (live_config ".jpg" (mkFileName (WordStem "thumb") ".jpg") 3600 4 0 0));
    discriminate.
Defined.


Lemma error_response_value (self : DashProvider) (msg : Message) :
  error_response self msg
  = ((if req self then [LogError (last3 (url_parts self)) msg] else []),
     Ok (ErrorResponse msg)).
Proof. unfold error_response. destruct (req self); reflexivity. Qed.





(** X6.  [process_init_segment] answers a configuration with neither one nor
    two representations with the error for a bad number of representations
    whether or not a file name is there, and reads no init file; with one or
    two representations and no file name it raises [IndexError] before any
    file is read. *)
Theorem init_segment_needs_one_or_two_representations (self : DashProvider)
    (cfg : Config) :
  let n := List.length (reps cfg) in
  (n <> 1%nat -> n <> 2%nat ->
     let msg := InvalidRepresentationCount (Z.of_nat n) in
     process_init_segment self cfg
     = ((if req self then [LogError (last3 (url_parts self)) msg] else []),
        Ok (ErrorResponse msg)))
  /\
  (n = 1%nat \/ n = 2%nat -> filenames cfg = [] ->
     process_init_segment self cfg = ([], Raise IndexError)).
Proof.
  cbv zeta. split.
  - intros H1 H2. unfold process_init_segment.
    destruct (Z.eqb_spec (Z.of_nat (List.length (reps cfg))) 1); [lia|].
    destruct (Z.eqb_spec (Z.of_nat (List.length (reps cfg))) 2); [lia|].
    apply error_response_value.
  - intros Hn Hf. unfold process_init_segment. rewrite Hf.
    destruct (reps cfg) as [|r0 [|r1 [|r2 rs]]]; simpl in Hn;
      try (destruct Hn; discriminate); reflexivity.
Qed.

(** ** The availability tests of the media branch *)




(** The threshold is the rounded one.  With the doubles nearest to 0.1 as
    the offset and to 3.9 as the clock, and segments of 4 seconds, the
    double 4 - 0.1 is the clock itself and the request is served, although
    3.9 is before 4 - 0.1 in exact arithmetic.  An availability start time
    too large for a double makes the request fail, also when the offset is
    -1 and the start time is only needed for the text of the error. *)
Example first_segment_threshold_is_rounded :
  let tenth := (3602879701896397 # 36028797018963968)%Q in
  let clock := (8782019273372467 # 2251799813685248)%Q in
  float_round (1 # 10) = tenth /\
  float_round (39 # 10) = clock /\
  float_sub 4 tenth = clock /\
  Qlt_bool clock (4 - tenth)%Q = true /\
  accepted (outcome (parse_url (provider_at clock)
                       (live_config ".m4s" (segment_file 0) 3600 4 0 tenth))) = true /\
  parse_url (provider_at (3 # 1))
    (mkConfig ".m4s" "testpic" "V1" [segment_file 0] "V1" [video_rep] [asset 3600 4]
       (2 ^ 1024) 0 None 0 0 0 [] [3600] 3600 [] 0)
  = ([], Raise OverflowError) /\
  parse_url (provider_at (3 # 1))
    (mkConfig ".m4s" "testpic" "V1" [segment_file 0] "V1" [video_rep] [asset 3600 4]
       (2 ^ 1024) (-1 # 1) None 0 0 0 [] [3600] 3600 [] 0)
  = ([], Raise OverflowError).
Proof. vm_compute. repeat split. Qed.

(** ** The events of a media request *)

Lemma dispatch_media_segment_events (self : DashProvider) (cfg : Config)
    (vod_nr seg_nr : Z) (seg_ext : string) (offset : Z) (lmsg : bool) :
  vod_infos cfg <> [] ->
  let m := dispatch_media_segment self cfg vod_nr seg_nr seg_ext offset lmsg in
  (exists r, m = (media_events r, Ok r) /\ accepted (Ok r) = true) \/
  m = ([], Raise IndexError).
Proof.
  intros Hv. cbv zeta.
  destruct (vod_infos cfg) as [|v0 vs] eqn:Ev; [congruence|].
  unfold dispatch_media_segment, filter_media_segment. rewrite Ev.
  destruct (reps cfg) as [|r0 [|r1 rs]].
  - right. reflexivity.
  - left. cbn. eexists (MediaData _). split; reflexivity.
  - left.
    assert (Hn : (Z.of_nat (List.length (r0 :: r1 :: rs)) =? 1) = false).
    { apply Z.eqb_neq. cbn [List.length]. lia. }
    rewrite Hn. cbn. eexists (MuxedMedia _ _). split; reflexivity.
Qed.

(** The three ways in which [process_media_segment] ends. *)
Lemma process_media_segment_events (self : DashProvider) (cfg : Config) (clock : Q) :
  let m := process_media_segment self cfg clock in
  (exists e, m = ([], Raise e)) \/
  (exists msg,
     m = ((if req self then [LogError (last3 (url_parts self)) msg] else []),
          Ok (ErrorResponse msg)) /\
     ((exists n s, msg = TooEarlySegmentNumber n s) \/
      (exists n l, msg = BeyondLastSegment n l))) \/
  (exists r, m = (media_events r, Ok r) /\ accepted (Ok r) = true).
Proof.
  cbv zeta. unfold process_media_segment.
  destruct (vod_infos cfg) as [|v0 vs] eqn:Ev; [left; eexists; reflexivity|].
  cbn [first]. rewrite mbind_lift_ok.
  destruct (filenames cfg) as [|f fs]; [left; eexists; reflexivity|].
  cbn [first]. rewrite mbind_lift_ok.
  destruct (requested_seg_nr (seg_base f) (seg_duration v0) (get_timescale cfg))
    as [n|e]; [|left; eexists; reflexivity].
  rewrite mbind_lift_ok.
  destruct (n <? seg_start_nr_of cfg).
  { right. left. eexists. split; [apply error_response_value|].
    left. eexists. eexists. reflexivity. }
  match goal with
  | |- context [mbind (lift ?b) _] => destruct b as [[vl|]|e] eqn:Eb
  end; [ | | left; eexists; reflexivity].
  { rewrite mbind_lift_ok. right. left. eexists.
    split; [apply error_response_value|]. right. eexists. eexists. reflexivity. }
  rewrite mbind_lift_ok.
  match goal with
  | |- context [divmod ?a ?b] => destruct (divmod a b) as [[loops time]|e]
  end; [|left; eexists; reflexivity].
  rewrite mbind_lift_ok.
  destruct (initial_durations cfg) as [|d0 ds]; [left; eexists; reflexivity|].
  cbn [first]. rewrite mbind_lift_ok.
  match goal with
  | |- context [floordiv ?a ?b] => destruct (floordiv a b) as [q|e]
  end; [|left; eexists; reflexivity].
  rewrite mbind_lift_ok.
  match goal with
  | |- context [dispatch_media_segment self cfg ?a ?b ?c ?d ?e] =>
      destruct (dispatch_media_segment_events self cfg a b c d e) as [[r [E Hr]] | E];
        [rewrite Ev; discriminate | | ]
  end.
  - right. right. exists r. auto.
  - left. eexists. exact E.
Qed.

(** X8.  [process_media_segment] ends in one of three ways.  It raises an
    exception before any collaborator is called; or it answers with the
    error for a segment number before the first or beyond the last one,
    having written at most the log line and read no segment; or it answers
    with segment data, having made one byte-rewrite call, or two byte-rewrite
    calls followed by one multiplexer call, and nothing else. *)
Theorem media_segment_errors_read_nothing (self : DashProvider) (cfg : Config)
    (clock : Q) :
  match process_media_segment self cfg clock with
  | (t, Raise _) => t = []
  | (t, Ok (ErrorResponse msg)) =>
      t = (if req self then [LogError (last3 (url_parts self)) msg] else []) /\
      match msg with
      | TooEarlySegmentNumber _ _ | BeyondLastSegment _ _ => True
      | _ => False
      end
  | (t, Ok r) => t = media_events r /\ accepted (Ok r) = true
  end.
Proof.
  destruct (process_media_segment_events self cfg clock)
    as [[e ->] | [[msg [-> Hmsg]] | [r [-> Hr]]]].
  - reflexivity.
  - split; [reflexivity|].
    destruct Hmsg as [[n [s ->]] | [n [l ->]]]; exact I.
  - destruct r; try discriminate Hr; split; reflexivity.
Qed.

(** X9.  Every media request that passes the availability tests and whose
    processing returns, be it with data or with an error about the segment
    number, and whether or not a simulated outage replaces the response,
    pauses for half a second exactly once, as its last action; a request
    whose processing raises does not pause. *)
Theorem served_media_request_sleeps_once (self : DashProvider) (cfg : Config) :
  match serve_media_segment self cfg with
  | (t, Ok _) =>
      exists t', t = t' ++ [Sleep_500ms] /\ Forall (fun ev => is_sleep ev = false) t'
  | (t, Raise _) => Forall (fun ev => is_sleep ev = false) t
  end.
Proof.
  assert (Hlog : forall msg,
            Forall (fun ev => is_sleep ev = false)
              (if req self then [LogError (last3 (url_parts self)) msg] else [])).
  { intros msg. destruct (req self); repeat constructor. }
  assert (Hmedia : forall r, Forall (fun ev => is_sleep ev = false) (media_events r)).
  { intros r. destruct r; repeat constructor. }
  unfold serve_media_segment.
  destruct (process_media_segment_events self cfg (now_float self))
    as [[e ->] | [[msg [-> _]] | [r [-> _]]]].
  - cbn. constructor.
  - set (t0 := if req self then [LogError (last3 (url_parts self)) msg] else []).
    assert (H0 : Forall (fun ev => is_sleep ev = false) t0) by apply Hlog.
    clearbody t0.
    destruct (multi_url cfg) as [|spec [|spec' l]].
    + cbn. rewrite ?app_nil_r. exists t0. auto.
    + destruct (base_url_server_down spec (now self)) as [[|]|e].
      * cbn [mbind lift app]. rewrite error_response_value.
        cbn. exists (t0 ++ (if req self
                            then [LogError (last3 (url_parts self))
                                    (FaultInjected (now self))] else [])).
        split; [rewrite <- !app_assoc; reflexivity|].
        apply Forall_app. split; [exact H0 | apply Hlog].
      * cbn. rewrite ?app_nil_r. exists t0. auto.
      * cbn. rewrite ?app_nil_r. exact H0.
    + cbn. rewrite ?app_nil_r. exists t0. auto.
  - set (t0 := media_events r).
    assert (H0 : Forall (fun ev => is_sleep ev = false) t0) by apply Hmedia.
    clearbody t0.
    destruct (multi_url cfg) as [|spec [|spec' l]].
    + cbn. rewrite ?app_nil_r. exists t0. auto.
    + destruct (base_url_server_down spec (now self)) as [[|]|e].
      * cbn [mbind lift app]. rewrite error_response_value.
        cbn. exists (t0 ++ (if req self
                            then [LogError (last3 (url_parts self))
                                    (FaultInjected (now self))] else [])).
        split; [rewrite <- !app_assoc; reflexivity|].
        apply Forall_app. split; [exact H0 | apply Hlog].
      * cbn. rewrite ?app_nil_r. exists t0. auto.
      * cbn. rewrite ?app_nil_r. exact H0.
    + cbn. rewrite ?app_nil_r. exists t0. auto.
Qed.

(** ** The mapping onto the stored segments *)

(** X10.  For a request that passes the tests on the segment number, with a
    positive loop duration L, a positive segment duration D and a first
    initial-duration boundary that is not negative, the local segment number
    of every byte-rewrite call lies between the first segment of the loop
    and that number plus (L - 1) / D: the mapping never reads a segment
    before the loop or more than one loop after its start. *)
Theorem local_segment_within_loop (self : DashProvider) (cfg : Config) (clock : Q)
    (v0 : VodInfo) (vs : list VodInfo) (f : FileName) (fs : list FileName)
    (d0 : Z) (ds : list Z) (n : Z) :
  vod_infos cfg = v0 :: vs -> filenames cfg = f :: fs ->
  initial_durations cfg = d0 :: ds ->
  requested_seg_nr (seg_base f) (seg_duration v0) (get_timescale cfg) = Ok n ->
  seg_start_nr_of cfg <= n ->
  (forall very_last, last_item (last_segment_numbers cfg) = Ok very_last -> n <= very_last) ->
  0 < loop_duration cfg -> 0 < seg_duration v0 -> 0 <= d0 -> reps cfg <> [] ->
  exists resp,
    outcome (process_media_segment self cfg clock) = Ok resp /\
    calls_of resp <> [] /\
    forall c, In c (calls_of resp) ->
      exists k, local_seg_nr c = NumberStem k /\
                first_segment_in_loop v0 <= k
                <= first_segment_in_loop v0 + (loop_duration cfg - 1) / seg_duration v0.
Proof.
  intros Hv Hf Hd Hn Hstart Hlast HL HD Hd0 Hr.
  rewrite (process_media_segment_mapped self cfg clock v0 vs f fs d0 ds n)
    by (try assumption; lia).
  cbv zeta.
  match goal with
  | |- context [dispatch_media_segment self cfg ?vod_nr ?nr ?e ?off ?lmsg] =>
      destruct (dispatch_media_segment_calls self cfg vod_nr nr e off lmsg)
        as [resp [E [_ [Hcalls Hlen]]]]; [rewrite Hv; discriminate | exact Hr |]
  end.
  exists resp. split; [exact E|]. split.
  { intros Hnil. rewrite Hnil in Hlen. simpl in Hlen.
    destruct (List.length (reps cfg) =? 1)%nat; discriminate. }
  intros c Hc. rewrite Forall_forall in Hcalls.
  destruct (Hcalls c Hc) as [Hk _].
  eexists. split; [exact Hk|].
  set (diff := (n - seg_start_nr_of cfg) * seg_duration v0
               + availability_start_time_in_s cfg - availability_start_time_in_s cfg).
  pose proof (Z.mod_pos_bound diff (loop_duration cfg) HL) as Ht.
  set (time := diff mod loop_duration cfg) in *.
  assert (Hrange : 0 <= time - (if time >=? d0 then d0 else 0) <= loop_duration cfg - 1).
  { destruct (Z.geb_spec time d0); lia. }
  pose proof (Z.div_pos _ (seg_duration v0) (proj1 Hrange) HD).
  pose proof (Z.div_le_mono _ _ (seg_duration v0) HD (proj2 Hrange)).
  lia.
Qed.

(** X10 at segment number 1000 of a stream of one asset of 3600 seconds. *)
Lemma local_segment_within_loop_witness :
  exists resp,
    outcome (process_media_segment (provider_at (40 # 1))
               (live_config ".m4s" (segment_file 1000) 3600 4 0 0) (40 # 1)) = Ok resp /\
    calls_of resp <> [] /\
    forall c, In c (calls_of resp) ->
      exists k, local_seg_nr c = NumberStem k /\
                first_segment_in_loop (asset 3600 4) <= k
                <= first_segment_in_loop (asset 3600 4) + (3600 - 1) / 4.
Proof.
  apply (local_segment_within_loop (provider_at (40 # 1))
           (live_config ".m4s" (segment_file 1000) 3600 4 0 0) (40 # 1)
           (asset 3600 4) [] (segment_file 1000) [] 3600 [] 1000).
  - reflexivity.
  - reflexivity.
  - reflexivity.
  - reflexivity.
  - vm_compute. discriminate.
  - intros very_last H. discriminate H.
  - reflexivity.
  - reflexivity.
  - vm_compute. discriminate.
  - discriminate.
Defined.

(** X11.  For a request that passes the tests on the segment number, when
    the segment duration D divides the loop duration and the first
    initial-duration boundary, the offset at the start of the loop plus the
    time of the local segment within the loop is the time of the requested
    segment since the first one: with k the local segment number,
    offset + (k - first_segment_in_loop) * D = (seg_nr - seg_start_nr) * D. *)
Theorem offset_plus_local_time_is_live_time (self : DashProvider) (cfg : Config)
    (clock : Q) (v0 : VodInfo) (vs : list VodInfo) (f : FileName) (fs : list FileName)
    (d0 : Z) (ds : list Z) (n : Z) :
  vod_infos cfg = v0 :: vs -> filenames cfg = f :: fs ->
  initial_durations cfg = d0 :: ds ->
  requested_seg_nr (seg_base f) (seg_duration v0) (get_timescale cfg) = Ok n ->
  seg_start_nr_of cfg <= n ->
  (forall very_last, last_item (last_segment_numbers cfg) = Ok very_last -> n <= very_last) ->
  loop_duration cfg <> 0 -> seg_duration v0 <> 0 ->
  loop_duration cfg mod seg_duration v0 = 0 -> d0 mod seg_duration v0 = 0 ->
  reps cfg <> [] ->
  exists resp,
    outcome (process_media_segment self cfg clock) = Ok resp /\
    calls_of resp <> [] /\
    forall c, In c (calls_of resp) ->
      exists k, local_seg_nr c = NumberStem k /\
                fc_offset_at_loop_start c + (k - first_segment_in_loop v0) * seg_duration v0
                = (n - seg_start_nr_of cfg) * seg_duration v0.
Proof.
  intros Hv Hf Hd Hn Hstart Hlast HL HD HLD Hd0 Hr.
  rewrite (process_media_segment_mapped self cfg clock v0 vs f fs d0 ds n)
    by assumption.
  cbv zeta.
  match goal with
  | |- context [dispatch_media_segment self cfg ?vod_nr ?nr ?e ?off ?lmsg] =>
      destruct (dispatch_media_segment_calls self cfg vod_nr nr e off lmsg)
        as [resp [E [_ [Hcalls Hlen]]]]; [rewrite Hv; discriminate | exact Hr |]
  end.
  exists resp. split; [exact E|]. split.
  { intros Hnil. rewrite Hnil in Hlen. simpl in Hlen.
    destruct (List.length (reps cfg) =? 1)%nat; discriminate. }
  intros c Hc. rewrite Forall_forall in Hcalls.
  destruct (Hcalls c Hc) as [Hk [Ho _]].
  eexists. split; [exact Hk|]. rewrite Ho.
  set (D := seg_duration v0) in *. set (L := loop_duration cfg) in *.
  set (s := seg_start_nr_of cfg).
  replace ((n - s) * D + availability_start_time_in_s cfg
           - availability_start_time_in_s cfg) with ((n - s) * D) by lia.
  set (diff := (n - s) * D).
  pose proof (Z.div_mod diff L HL) as Hdm.
  set (time := diff mod L) in *.
  set (last := if time >=? d0 then d0 else 0).
  assert (Hdiv : (D | time - last)).
  { apply Z.divide_sub_r.
    - replace time with (diff - L * (diff / L)) by lia.
      apply Z.divide_sub_r.
      + exists (n - s). reflexivity.
      + apply Z.divide_mul_l. apply Z.mod_divide; assumption.
    - unfold last. destruct (time >=? d0).
      + apply Z.mod_divide; assumption.
      + apply Z.divide_0_r. }
  destruct Hdiv as [q Hq]. rewrite Hq.
  rewrite Z.div_mul by exact HD. lia.
Qed.

(** X11 at segment number 1000 of a stream of one asset of 3600 seconds. *)
Lemma offset_plus_local_time_is_live_time_witness :
  exists resp,
    outcome (process_media_segment (provider_at (40 # 1))
               (live_config ".m4s" (segment_file 1000) 3600 4 0 0) (40 # 1)) = Ok resp /\
    calls_of resp <> [] /\
    forall c, In c (calls_of resp) ->
      exists k, local_seg_nr c = NumberStem k /\
                fc_offset_at_loop_start c + (k - 1) * 4 = (1000 - 0) * 4.
Proof.
  apply (offset_plus_local_time_is_live_time (provider_at (40 # 1))
           (live_config ".m4s" (segment_file 1000) 3600 4 0 0) (40 # 1)
           (asset 3600 4) [] (segment_file 1000) [] 3600 [] 1000).
  - reflexivity.
  - reflexivity.
  - reflexivity.
  - reflexivity.
  - vm_compute. discriminate.
  - intros very_last H. discriminate H.
  - discriminate.
  - discriminate.
  - reflexivity.
  - reflexivity.
  - discriminate.
Defined.

(** ** Fault windows *)

Lemma down_in_down_up_true (total_dur dur1 phase : Z) (l : list Z) :
  down_in_down_up total_dur dur1 phase l = true <->
  exists i, In i l /\ i * total_dur < phase <= i * total_dur + dur1.
Proof.
  induction l as [|j l IH]; simpl.
  - split; [discriminate | intros [i [[] _]]].
  - destruct (Z.ltb_spec (j * total_dur) phase) as [H1|H1];
      destruct (Z.leb_spec phase (j * total_dur + dur1)) as [H2|H2]; simpl.
    + split; [intros _; exists j; split; [left; reflexivity | lia] | reflexivity].
    + rewrite IH. split.
      * intros [i [Hin Hi]]. exists i. auto.
      * intros [i [[-> | Hin] Hi]]; [lia | exists i; auto].
    + rewrite IH. split.
      * intros [i [Hin Hi]]. exists i. auto.
      * intros [i [[-> | Hin] Hi]]; [lia | exists i; auto].
    + rewrite IH. split.
      * intros [i [Hin Hi]]. exists i. auto.
      * intros [i [[-> | Hin] Hi]]; [lia | exists i; auto].
Qed.

Lemma base_url_server_down_down_up (spec sa sb : string) (A B now : Z) :
  split "_" spec = [String "d" sa; String "u" sb] ->
  int_of_string sa = Ok A -> int_of_string sb = Ok B ->
  A + B <> 0 -> Z.abs (A + B) < float_max_bound ->
  exists down,
    base_url_server_down spec now = Ok down /\
    (down = true <-> in_leading_down_interval A B (now mod 60)).
Proof.
  intros Hs HA HB Hc Hbound.
  unfold base_url_server_down. rewrite Hs. cbn [tail head].
  rewrite HA, HB. cbn [bind].
  rewrite (ceil_60_over_ok _ Hc Hbound). cbn [bind].
  change (Ascii.eqb "d" "u" && Ascii.eqb "u" "d") with false.
  change (Ascii.eqb "d" "d" && Ascii.eqb "u" "u") with true. cbv iota.
  eexists. split; [reflexivity|].
  rewrite down_in_down_up_true. unfold in_leading_down_interval. cbv zeta.
  split.
  - intros [i [Hin Hi]]. apply In_range in Hin. exists i. auto.
  - intros [i [Hin Hi]]. exists i. split; [apply In_range; exact Hin | exact Hi].
Qed.

(** X12.  For a fault window "dA_uB" (cycle A + B, not zero) the media
    branch answers a request whose segment processing returned a response
    [r] with the "server down" error exactly when [now mod 60] lies in
    (i * cycle, i * cycle + A] for one of the ceil(60 / cycle) repetitions
    [i] of the cycle, and with [r] otherwise. *)
Theorem leading_down_window (spec sa sb : string) (A B : Z) (self : DashProvider)
    (cfg : Config) (t : list Event) (r : Response) :
  split "_" spec = [String "d" sa; String "u" sb] ->
  int_of_string sa = Ok A -> int_of_string sb = Ok B ->
  A + B <> 0 -> Z.abs (A + B) < float_max_bound ->
  multi_url cfg = [spec] ->
  process_media_segment self cfg (now_float self) = (t, Ok r) ->
  (in_leading_down_interval A B (now self mod 60) ->
     outcome (serve_media_segment self cfg)
     = Ok (ErrorResponse (FaultInjected (now self)))) /\
  (~ in_leading_down_interval A B (now self mod 60) ->
     outcome (serve_media_segment self cfg) = Ok r).
Proof.
  intros Hs HA HB Hc Hbound Hm Hp.
  destruct (base_url_server_down_down_up spec sa sb A B (now self) Hs HA HB Hc Hbound)
    as [down [Hd Hiff]].
  rewrite (serve_media_segment_outcome self cfg spec t r down Hm Hp Hd).
  split.
  - intros Hin. apply Hiff in Hin. rewrite Hin. reflexivity.
  - intros Hnin. destruct down; [exfalso; apply Hnin, Hiff; reflexivity | reflexivity].
Qed.

(** X12 at the fault window "d5_u10", 63 seconds after the epoch. *)
Lemma leading_down_window_witness :
  let cfg := with_multi_url (live_config ".m4s" (segment_file 3) 3600 4 0 0)
               ["d5_u10"%string] in
  outcome (serve_media_segment (provider_at (63 # 1)) cfg)
  = Ok (ErrorResponse (FaultInjected 63)).
Proof.
  cbv zeta.
  edestruct (leading_down_window "d5_u10" "5" "10" 5 10 (provider_at (63 # 1))
               (with_multi_url (live_config ".m4s" (segment_file 3) 3600 4 0 0)
                  ["d5_u10"%string])) as [Hdown _];
    [reflexivity | reflexivity | reflexivity | discriminate | reflexivity
     | reflexivity | reflexivity |].
  apply Hdown. exists 0. vm_compute. repeat split; discriminate.
Defined.

Lemma length_split (c : ascii) (s : string) :
  List.length (split c s) = S (count_char c s).
Proof.
  induction s as [|a s IH]; [reflexivity|].
  simpl. destruct (Ascii.eqb a c).
  - simpl. rewrite IH. reflexivity.
  - destruct (split c s) as [|w ws]; [discriminate|]. simpl in *. exact IH.
Qed.

(** X13.  A single fault window whose text does not hold exactly one
    underscore makes the media branch raise [ValueError]; this happens after
    the segment has been processed, so the calls of the processing have been
    made, and the request is not delayed. *)
Theorem malformed_fault_window_raises (self : DashProvider) (cfg : Config)
    (spec : string) (t : list Event) (r : Response) :
  multi_url cfg = [spec] -> count_char "_" spec <> 1%nat ->
  process_media_segment self cfg (now_float self) = (t, Ok r) ->
  serve_media_segment self cfg = (t, Raise ValueError).
Proof.
  intros Hm Hc Hp. unfold serve_media_segment. rewrite Hp, Hm.
  assert (Hb : base_url_server_down spec (now self) = Raise ValueError).
  { unfold base_url_server_down.
    pose proof (length_split "_" spec) as Hl.
    destruct (split "_" spec) as [|a [|b [|c l]]]; try reflexivity.
    simpl in Hl. lia. }
  rewrite Hb. cbn. rewrite app_nil_r. reflexivity.
Qed.

(** X13 at the fault window "u10". *)
Lemma malformed_fault_window_raises_witness :
  exists seg,
    serve_media_segment (provider_at (40 # 1))
      (with_multi_url (live_config ".m4s" (segment_file 3) 3600 4 0 0) ["u10"%string])
    = ([MediaSegmentFilter_filter seg], Raise ValueError).
Proof.
  eexists.
  eapply (malformed_fault_window_raises (provider_at (40 # 1))
            (with_multi_url (live_config ".m4s" (segment_file 3) 3600 4 0 0)
               ["u10"%string]) "u10").
  - reflexivity.
  - vm_compute. discriminate.
  - reflexivity.
Defined.

(** X14.  Whatever the polarity of a fault window with durations A >= 0 and
    A + B > 0, a request in the first second of a minute ([now mod 60] = 0)
    is never answered with the "server down" error: both loops test the phase
    with a strict lower bound, so also a window that starts with its down
    part ("dA_uB") counts second 0 as up. *)
Theorem first_second_is_never_down (self : DashProvider) (cfg : Config)
    (spec a_var b_var : string) (A B : Z) (t : list Event) (r : Response) :
  split "_" spec = [a_var; b_var] ->
  int_of_string (tail a_var) = Ok A -> int_of_string (tail b_var) = Ok B ->
  0 <= A -> 0 < A + B < float_max_bound ->
  multi_url cfg = [spec] ->
  process_media_segment self cfg (now_float self) = (t, Ok r) ->
  now self mod 60 = 0 ->
  outcome (serve_media_segment self cfg) = Ok r.
Proof.
  intros Hs HA HB HA0 Hc Hm Hp Hphase.
  assert (Hd : base_url_server_down spec (now self) = Ok false).
  { unfold base_url_server_down. rewrite Hs, HA, HB. cbn [bind].
    rewrite ceil_60_over_ok by lia. cbn [bind].
    destruct a_var as [|a0 a']; [discriminate HA|].
    destruct b_var as [|b0 b']; [discriminate HB|].
    cbn [head bind]. rewrite Hphase.
    destruct (Ascii.eqb a0 "u" && Ascii.eqb b0 "d").
    - f_equal.
      destruct (down_in_up_down (A + B) A 0 (range (ceil_div 60 (A + B)))) eqn:E;
        [|reflexivity].
      apply down_in_up_down_true in E. destruct E as [i [Hin Hi]].
      apply In_range in Hin. nia.
    - destruct (Ascii.eqb a0 "d" && Ascii.eqb b0 "u"); [|reflexivity].
      f_equal.
      destruct (down_in_down_up (A + B) A 0 (range (ceil_div 60 (A + B)))) eqn:E;
        [|reflexivity].
      apply down_in_down_up_true in E. destruct E as [i [Hin Hi]].
      apply In_range in Hin. nia. }
  rewrite (serve_media_segment_outcome self cfg spec t r false Hm Hp Hd).
  reflexivity.
Qed.

(** X14 at the fault window "d5_u10", 120 seconds after the epoch. *)
Lemma first_second_is_never_down_witness :
  let self := provider_at (120 # 1) in
  let cfg := with_multi_url (live_config ".m4s" (segment_file 3) 3600 4 0 0)
               ["d5_u10"%string] in
  outcome (serve_media_segment self cfg)
  = outcome (process_media_segment self cfg (120 # 1)).
Proof.
  cbv zeta.
  eapply (first_second_is_never_down (provider_at (120 # 1))
            (with_multi_url (live_config ".m4s" (segment_file 3) 3600 4 0 0)
               ["d5_u10"%string]) "d5_u10" "d5" "u10" 5 10).
  - reflexivity.
  - reflexivity.
  - reflexivity.
  - discriminate.
  - split; reflexivity.
  - reflexivity.
  - reflexivity.
  - reflexivity.
Defined.

(** ** More on sort_by_period *)

Lemma combine_snoc {A B : Type} (l1 : list A) (l2 : list B) (a : A) (b : B) :
  List.length l1 = List.length l2 ->
  combine (l1 ++ [a]) (l2 ++ [b]) = combine l1 l2 ++ [(a, b)].
Proof.
  revert l2. induction l1 as [|x l1 IH]; intros [|y l2] H; simpl in H; try discriminate.
  - reflexivity.
  - simpl. rewrite IH by lia. reflexivity.
Qed.

Lemma last_item_combine {A B : Type} (l1 : list A) (l2 : list B) (a : A) (b : B) :
  List.length l1 = List.length l2 ->
  last_item l1 = Ok a -> last_item l2 = Ok b -> In (a, b) (combine l1 l2).
Proof.
  revert l2. induction l1 as [|x l1 IH]; intros [|y l2] H Ha Hb; simpl in H;
    try discriminate.
  destruct l1 as [|x' l1]; destruct l2 as [|y' l2]; simpl in H; try discriminate.
  - simpl in Ha, Hb. injection Ha as ->. injection Hb as ->. left. reflexivity.
  - right. apply IH; [simpl; lia | exact Ha | exact Hb].
Qed.

(** The lists of assets and of file names stay in step. *)
Lemma sort_by_period_paired (cfg : Config) (now : Z) :
  vod_infos cfg <> [] -> total_wrap (vod_infos cfg) <> 0 ->
  List.length (vod_infos cfg) = List.length (filenames cfg) ->
  exists vs fs sfa,
    sort_by_period cfg now = Ok (with_rotation cfg vs fs sfa) /\
    List.length vs = List.length fs /\
    (List.length vs = List.length (vod_infos cfg) \/
     List.length vs = S (List.length (vod_infos cfg))) /\
    forall v f, In (v, f) (combine vs fs)
                <-> In (v, f) (combine (vod_infos cfg) (filenames cfg)).
Proof.
  intros Hv Ht Hlen.
  assert (Hf : filenames cfg <> []).
  { destruct (filenames cfg); [|discriminate].
    destruct (vod_infos cfg); [congruence | discriminate]. }
  destruct (sort_by_period_shape cfg now Hv Hf Ht)
    as [mid_v [mid_f [m0 [Hmid [Hm0 [vs' [fs' [sfa' [E Hres]]]]]]]]].
  assert (Hm : List.length mid_v = List.length mid_f /\
               List.length mid_v = List.length (vod_infos cfg) /\
               forall v f, In (v, f) (combine mid_v mid_f)
                           <-> In (v, f) (combine (vod_infos cfg) (filenames cfg))).
  { destruct Hmid as [[-> ->] | [v0 [vs [f0 [fs [Ev [Ef [-> ->]]]]]]]].
    - split; [exact Hlen|]. split; [reflexivity|]. intros v f. reflexivity.
    - rewrite Ev, Ef in *. simpl in Hlen.
      split; [rewrite !length_app; simpl; lia|].
      split; [rewrite length_app; simpl; lia|].
      intros v f. rewrite combine_snoc by lia. rewrite in_app_iff. simpl.
      intuition. }
  destruct Hm as [Hl1 [Hl2 Hpairs]].
  exists vs', fs', sfa'. split; [exact E|].
  destruct Hres as [[_ [-> ->]] | [_ [lv [lf [Elv [_ [Elf [_ [-> ->]]]]]]]]].
  - split; [exact Hl1|]. split; [left; exact Hl2 | exact Hpairs].
  - split; [simpl; lia|]. split; [right; simpl; lia|].
    intros v f. simpl. rewrite Hpairs. split.
    + intros [H | H]; [|exact H].
      injection H as <- <-. apply Hpairs.
      apply last_item_combine; assumption.
    + intros H. right. exact H.
Qed.

(** X15.  When the catalog has as many file names as assets,
    [sort_by_period] keeps them in step: the result has as many file names
    as assets, one asset more than before at most, and the pairs of an asset
    and the file name at its position are the pairs of the catalog; no
    attribute other than the two lists and [start_from_ast] changes. *)
Theorem rotation_keeps_assets_and_names_paired (cfg : Config) (now : Z) :
  vod_infos cfg <> [] -> total_wrap (vod_infos cfg) <> 0 ->
  List.length (vod_infos cfg) = List.length (filenames cfg) ->
  exists vs fs sfa,
    sort_by_period cfg now = Ok (with_rotation cfg vs fs sfa) /\
    List.length vs = List.length fs /\
    (List.length vs = List.length (vod_infos cfg) \/
     List.length vs = S (List.length (vod_infos cfg))) /\
    forall v f, In (v, f) (combine vs fs)
                <-> In (v, f) (combine (vod_infos cfg) (filenames cfg)).
Proof. exact (sort_by_period_paired cfg now). Qed.

(** X15 at a rotation of a 10 s and a 100 s asset, eleven seconds after the
    availability start time. *)
Lemma rotation_keeps_assets_and_names_paired_witness :
  exists vs fs sfa,
    sort_by_period (two_asset_config ".mpd" manifest_file) 11
    = Ok (with_rotation (two_asset_config ".mpd" manifest_file) vs fs sfa) /\
    List.length vs = List.length fs /\
    (List.length vs = 2%nat \/ List.length vs = 3%nat) /\
    forall v f, In (v, f) (combine vs fs)
                <-> In (v, f) (combine [asset 10 2; asset 100 2]
                                 [manifest_file; manifest_file]).
Proof.
  apply (rotation_keeps_assets_and_names_paired
           (two_asset_config ".mpd" manifest_file) 11).
  - discriminate.
  - discriminate.
  - reflexivity.
Defined.

Lemma rotation_due_false (time : Z) (l : list VodInfo) :
  forall prog,
    Forall (fun v => 0 <= wrap_seconds v /\ 0 <= seg_duration v) l ->
    time <= prog -> rotation_due time prog l = false.
Proof.
  induction l as [|v l IH]; intros prog Hall Hle; [reflexivity|].
  inversion Hall as [|? ? [Hw Hs] Hrest]; subst.
  cbn [rotation_due].
  destruct (Z.gtb_spec time (prog + wrap_seconds v + seg_duration v)); [lia|].
  apply IH; [exact Hrest | lia].
Qed.

(** X16.  While the first asset of the catalog plays for the first time
    ([now] from the availability start time to one wrap duration of that
    asset after it, and before the end of the first loop) [sort_by_period]
    changes nothing, whether or not there are file names: no asset moves and
    [start_from_ast] stays. *)
Theorem first_play_changes_nothing (cfg : Config) (v0 : VodInfo) (vs : list VodInfo)
    (now : Z) :
  vod_infos cfg = v0 :: vs ->
  Forall (fun v => 0 <= wrap_seconds v /\ 0 <= seg_duration v) (vod_infos cfg) ->
  0 <= now - availability_start_time_in_s cfg <= wrap_seconds v0 ->
  now - availability_start_time_in_s cfg < total_wrap (vod_infos cfg) ->
  sort_by_period cfg now = Ok cfg.
Proof.
  intros Hv Hall Hd Hlt.
  unfold sort_by_period.
  rewrite divmod_ok by lia. cbn [bind].
  rewrite Z.div_small, Z.mod_small by lia.
  assert (Hno : rotation_due (now - availability_start_time_in_s cfg) 0 (vod_infos cfg)
                = false).
  { rewrite Hv in *. inversion Hall as [|? ? [Hw Hs] Hrest]; subst.
    cbn [rotation_due].
    destruct (Z.gtb_spec (now - availability_start_time_in_s cfg)
                (0 + wrap_seconds v0 + seg_duration v0)); [lia|].
    apply rotation_due_false; [exact Hrest | lia]. }
  rewrite Hno. cbn [bind]. unfold prepend_last. rewrite Hv. cbn [first bind].
  destruct (Z.gtb_spec (now - availability_start_time_in_s cfg) (wrap_seconds v0)); [lia|].
  cbn [bind]. rewrite Hv.
  replace (start_from_ast cfg + 0 * total_wrap (v0 :: vs)) with (start_from_ast cfg) by lia.
  rewrite <- Hv. rewrite with_rotation_same. reflexivity.
Qed.

(** X16 at a rotation of a 10 s and a 100 s asset, five seconds after the
    availability start time. *)
Lemma first_play_changes_nothing_witness :
  sort_by_period (two_asset_config ".mpd" manifest_file) 5
  = Ok (two_asset_config ".mpd" manifest_file).
Proof.
  apply (first_play_changes_nothing (two_asset_config ".mpd" manifest_file)
           (asset 10 2) [asset 100 2] 5).
  - reflexivity.
  - repeat constructor; discriminate.
  - split; discriminate.
  - reflexivity.
Defined.

(** X17.  With no file name in the configuration, [sort_by_period] raises
    [IndexError] as soon as [now] is more than the wrap duration of the
    first asset after the availability start time: both the forward step
    and the step that puts the last entry in front read a file name. *)
Theorem rotation_without_file_names_raises (cfg : Config) (v0 : VodInfo)
    (vs : list VodInfo) (now : Z) :
  vod_infos cfg = v0 :: vs -> filenames cfg = [] ->
  total_wrap (vod_infos cfg) <> 0 ->
  wrap_seconds v0 < now - availability_start_time_in_s cfg ->
  sort_by_period cfg now = Raise IndexError.
Proof.
  intros Hv Hf Ht Hgt.
  unfold sort_by_period. rewrite divmod_ok by exact Ht. cbn [bind].
  destruct (rotation_due _ 0 (vod_infos cfg)).
  - unfold rotate_forward. rewrite Hv, Hf. reflexivity.
  - cbn [bind]. unfold prepend_last. rewrite Hv. cbn [first bind].
    destruct (Z.gtb_spec (now - availability_start_time_in_s cfg) (wrap_seconds v0));
      [|lia].
    destruct (last_item_some (v0 :: vs)) as [lv [Elv _]]; [discriminate|].
    rewrite Elv, Hf. reflexivity.
Qed.

(** X17 at one asset of 3600 seconds, 3700 seconds after the availability
    start time. *)
Lemma rotation_without_file_names_raises_witness :
  sort_by_period (request (live_config ".m4s" (segment_file 3) 3600 4 0 0) ".m4s" []) 3700
  = Raise IndexError.
Proof.
  apply (rotation_without_file_names_raises
           (request (live_config ".m4s" (segment_file 3) 3600 4 0 0) ".m4s" [])
           (asset 3600 4) [] 3700).
  - reflexivity.
  - reflexivity.
  - discriminate.
  - reflexivity.
Defined.

(** ** The segment number of a request *)

Lemma round_half_away_integer (x : Q) (n : Z) : (x == inject_Z n)%Q -> round_half_away x = n.
Proof.
  unfold Qeq, inject_Z, round_half_away. cbn [Qnum Qden].
  destruct x as [a b]. cbn [Qnum Qden]. intros H.
  assert (Ha : a = n * Z.pos b) by lia. clear H. subst a.
  assert (Hb : 0 < Z.pos b) by lia.
  assert (Hdiv : (2 * Z.abs (n * Z.pos b) + Z.pos b) / (2 * Z.pos b) = Z.abs n).
  { symmetry. apply (Z.div_unique _ _ _ (Z.pos b)); [left; lia|].
    rewrite Z.abs_mul. rewrite (Z.abs_eq (Z.pos b)) by lia. ring. }
  rewrite Hdiv.
  destruct (Z.lt_trichotomy n 0) as [Hn | [Hn | Hn]].
  - rewrite Z.sgn_neg by nia. lia.
  - subst n. reflexivity.
  - rewrite Z.sgn_pos by nia. lia.
Qed.

(** ** Floats that are integers *)

Lemma round_half_even_exact (k d : Z) : 0 < d -> round_half_even (k * d) d = k.
Proof.
  intros Hd. unfold round_half_even.
  rewrite Z.mod_mul by lia. rewrite Z.div_mul by lia.
  change (2 * 0) with 0.
  destruct (Z.compare_spec 0 d); [lia | reflexivity | lia].
Qed.

(** [floor_log2] does not exceed the logarithm. *)
Lemma floor_log2_le (n d : positive) :
  0 <= floor_log2 n d -> 2 ^ floor_log2 n d * Z.pos d <= Z.pos n.
Proof.
  unfold floor_log2.
  set (e := Z.log2 (Z.pos n) - Z.log2 (Z.pos d)).
  destruct (Z.ltb_spec (Z.pos n * 2 ^ Z.max 0 (- e)) (Z.pos d * 2 ^ Z.max 0 e)) as [Hlt|Hge].
  - intros He.
    pose proof (Z.log2_spec (Z.pos n) ltac:(lia)) as [Hn _].
    pose proof (Z.log2_spec (Z.pos d) ltac:(lia)) as [_ Hd].
    pose proof (Z.log2_nonneg (Z.pos d)) as Hd0.
    assert (Hsplit : 2 ^ Z.log2 (Z.pos n) = 2 ^ (e - 1) * 2 ^ Z.succ (Z.log2 (Z.pos d))).
    { rewrite <- Z.pow_add_r by lia. f_equal. unfold e. lia. }
    assert (Hp : 0 < 2 ^ (e - 1)) by (apply Z.pow_pos_nonneg; lia).
    nia.
  - intros He.
    rewrite (Z.max_l 0 (- e)) in Hge by lia.
    rewrite (Z.max_r 0 e) in Hge by lia.
    change (2 ^ 0) with 1 in Hge. lia.
Qed.

Lemma nearest_double_integer (n d : positive) (z : Z) :
  0 < z <= 2 ^ 53 -> Z.pos n = z * Z.pos d ->
  (nearest_double n d == inject_Z z)%Q.
Proof.
  intros Hz Hn. unfold nearest_double.
  set (L := floor_log2 n d).
  assert (HL : L <= 53 /\ (L = 53 -> z = 2 ^ 53)).
  { destruct (Z.le_gt_cases 0 L) as [H0|H0]; [|split; lia].
    pose proof (floor_log2_le n d H0) as Hle. fold L in Hle.
    assert (Hzl : 2 ^ L <= z) by nia.
    split.
    - destruct (Z.le_gt_cases L 53) as [|Hgt]; [assumption|].
      assert (2 ^ 54 <= 2 ^ L) by (apply Z.pow_le_mono_r; lia).
      assert (2 ^ 53 < 2 ^ 54) by (apply Z.pow_lt_mono_r; lia).
      lia.
    - intros ->. lia. }
  destruct HL as [HL53 HLeq].
  set (e := Z.max (L - 52) (-1074)).
  destruct (Z.le_gt_cases e 0) as [He|He].
  - rewrite (Z.max_r 0 (- e)) by lia. rewrite (Z.max_l 0 e) by lia.
    change (2 ^ 0) with 1. rewrite !Z.mul_1_r.
    assert (Hp : 0 < 2 ^ (- e)) by (apply Z.pow_pos_nonneg; lia).
    replace (Z.pos n * 2 ^ (- e)) with ((z * 2 ^ (- e)) * Z.pos d) by (rewrite Hn; ring).
    rewrite round_half_even_exact by lia.
    unfold Qeq, inject_Z. cbn [Qnum Qden].
    rewrite Z2Pos.id by lia. ring.
  - assert (HL' : L = 53) by lia. specialize (HLeq HL'). subst z.
    assert (He1 : e = 1) by lia. rewrite He1.
    change (Z.max 0 (- (1))) with 0. change (Z.max 0 1) with 1.
    change (2 ^ 0) with 1. rewrite Z.mul_1_r.
    replace (Z.pos n) with (2 ^ 52 * (Z.pos d * 2 ^ 1)) by (rewrite Hn; ring).
    rewrite round_half_even_exact by lia.
    reflexivity.
Qed.

(** An integer of at most 53 bits is a double: rounding does not change
    it. *)
Lemma float_round_integer (x : Q) (z : Z) :
  Z.abs z <= 2 ^ 53 -> (x == inject_Z z)%Q -> (float_round x == inject_Z z)%Q.
Proof.
  intros Hz Hx. unfold float_round. rewrite Qred_correct.
  destruct x as [a d]. unfold Qeq, inject_Z in Hx. cbn [Qnum Qden] in Hx |- *.
  rewrite Z.mul_1_r in Hx.
  destruct a as [|n|n].
  - assert (z = 0) by nia. subst z. reflexivity.
  - apply nearest_double_integer; [nia | exact Hx].
  - assert (Hn : Z.pos n = (- z) * Z.pos d) by lia.
    rewrite (nearest_double_integer n d (- z)); [|nia | exact Hn].
    unfold Qeq, Qopp, inject_Z. cbn [Qnum Qden]. lia.
Qed.

Lemma float_of_int_exact (z : Z) :
  Z.abs z <= 2 ^ 53 ->
  exists a, float_of_int z = Ok a /\ (a == inject_Z z)%Q.
Proof.
  intros Hz. unfold float_of_int.
  assert (Hb : 2 ^ 53 < float_max_bound) by (vm_compute; reflexivity).
  destruct (Z.leb_spec float_max_bound (Z.abs z)); [lia|].
  eexists. split; [reflexivity|].
  apply float_round_integer; [exact Hz | reflexivity].
Qed.

Lemma float_is_infinite_false (x : Q) (z : Z) :
  Z.abs z <= 2 ^ 53 -> (x == inject_Z z)%Q -> float_is_infinite x = false.
Proof.
  intros Hz Hx. unfold float_is_infinite.
  destruct (Qle_bool (inject_Z float_max_bound) (Qabs x)) eqn:E; [|reflexivity].
  apply Qle_bool_iff in E. rewrite Hx in E.
  unfold Qle, Qabs, inject_Z in E. cbn [Qnum Qden] in E.
  assert (Hb : 2 ^ 53 < float_max_bound) by (vm_compute; reflexivity).
  lia.
Qed.

(** X18.  A time stem that holds the start time of segment [n] in timescale
    units, n * seg_dur * timescale, is read back as segment number [n],
    provided that the start time, the segment duration and the timescale
    are at most 2^53 in absolute value: every float of the computation is
    then an integer that a double holds exactly. *)
Theorem time_stem_round_trip (t : Q) (seg_dur timescale n : Z) :
  seg_dur <> 0 -> timescale <> 0 ->
  Z.abs seg_dur <= 2 ^ 53 -> Z.abs timescale <= 2 ^ 53 ->
  Z.abs (n * seg_dur * timescale) <= 2 ^ 53 ->
  (t == inject_Z (n * seg_dur * timescale))%Q ->
  requested_seg_nr (TimeStem t) seg_dur (Some timescale) = Ok n.
Proof.
  intros Hd Hts Bd Bts Bt Ht. unfold requested_seg_nr.
  destruct (float_of_int_exact seg_dur Bd) as [d [Ed Hdq]].
  destruct (float_of_int_exact timescale Bts) as [s [Es Hsq]].
  rewrite Ed. cbn [bind].
  destruct (Z.eqb_spec seg_dur 0); [contradiction|].
  rewrite Es. cbn [bind].
  destruct (Z.eqb_spec timescale 0); [contradiction|].
  rewrite (float_is_infinite_false t _ Bt Ht).
  f_equal. apply round_half_away_integer.
  assert (H1 : ~ (inject_Z seg_dur == 0)%Q).
  { intros H. apply Hd. unfold Qeq in H. simpl in H. lia. }
  assert (H2 : ~ (inject_Z timescale == 0)%Q).
  { intros H. apply Hts. unfold Qeq in H. simpl in H. lia. }
  assert (Bn : Z.abs n <= Z.abs (n * timescale) <= 2 ^ 53).
  { rewrite !Z.abs_mul in *. nia. }
  assert (E0 : (float_round t == inject_Z (n * seg_dur * timescale))%Q)
    by (apply float_round_integer; assumption).
  assert (E1 : (float_div (float_round t) d == inject_Z (n * timescale))%Q).
  { unfold float_div. apply float_round_integer; [lia|].
    rewrite E0, Hdq, !inject_Z_mult. field. exact H1. }
  unfold float_div at 1. apply float_round_integer; [lia|].
  rewrite E1, Hsq, inject_Z_mult. field. exact H2.
Qed.

(** X18 at segment number 10, segments of 4 seconds and a timescale of
    90000. *)
Lemma time_stem_round_trip_witness :
  requested_seg_nr (TimeStem (3600000 # 1)) 4 (Some 90000) = Ok 10.
Proof.
  apply (time_stem_round_trip (3600000 # 1) 4 90000 10).
  - discriminate.
  - discriminate.
  - vm_compute. discriminate.
  - vm_compute. discriminate.
  - vm_compute. discriminate.
  - reflexivity.
Defined.

(** Beyond 53 bits the float of the stem is rounded: with a segment
    duration and a timescale of 1, the stem 2^53 + 1 is read as segment
    2^53.  A stem too large for a double makes [int] raise
    [OverflowError]. *)
Example time_stem_beyond_53_bits :
  requested_seg_nr (TimeStem (9007199254740993 # 1)) 1 (Some 1) = Ok 9007199254740992 /\
  requested_seg_nr (TimeStem (inject_Z (2 ^ 1024))) 4 (Some 90000) = Raise OverflowError /\
  requested_seg_nr (TimeStem (3600000 # 1)) (2 ^ 1024) (Some 90000) = Raise OverflowError /\
  requested_seg_nr (TimeStem (3600000 # 1)) 0 None = Raise ZeroDivisionError.
Proof. vm_compute. repeat split. Qed.

Lemma get_timescale_none (cfg : Config) :
  Forall (fun rep => rep_id rep <> repId cfg) (reps cfg) -> get_timescale cfg = None.
Proof.
  unfold get_timescale. intros H.
  induction H as [|rep l Hrep _ IH]; [reflexivity|].
  simpl. apply String.eqb_neq in Hrep. rewrite Hrep. exact IH.
Qed.

(** X19.  A request with a time stem in a configuration whose
    representation id matches no representation raises [TypeError] (the
    timescale is missing) before any collaborator is called, and
    [OverflowError] instead when the segment duration is too large to
    become a float; a request with a number stem does not need the
    timescale and is read as that number. *)
Theorem time_stem_needs_known_representation (self : DashProvider) (cfg : Config)
    (clock : Q) (v0 : VodInfo) (vs : list VodInfo) (f : FileName) (fs : list FileName)
    (t : Q) :
  vod_infos cfg = v0 :: vs -> filenames cfg = f :: fs ->
  seg_base f = TimeStem t -> seg_duration v0 <> 0 ->
  Forall (fun rep => rep_id rep <> repId cfg) (reps cfg) ->
  process_media_segment self cfg clock
  = ([], Raise (if float_max_bound <=? Z.abs (seg_duration v0)
                then OverflowError else TypeError)) /\
  forall n, requested_seg_nr (NumberStem n) (seg_duration v0) (get_timescale cfg) = Ok n.
Proof.
  intros Hv Hf Hstem Hd Hreps. split; [|reflexivity].
  unfold process_media_segment.
  rewrite Hv. cbn [first]. rewrite mbind_lift_ok.
  rewrite Hf. cbn [first]. rewrite mbind_lift_ok.
  rewrite Hstem, (get_timescale_none cfg Hreps).
  unfold requested_seg_nr, float_of_int.
  destruct (float_max_bound <=? Z.abs (seg_duration v0)); [reflexivity|].
  cbn [bind].
  destruct (Z.eqb_spec (seg_duration v0) 0); [contradiction|]. reflexivity.
Qed.

(** X19 at a request for representation "V9" of a stream that has "V1"
    only. *)
Lemma time_stem_needs_known_representation_witness :
  process_media_segment (provider_at (40 # 1))
    (mkConfig ".m4s" "testpic" "V9" [mkFileName (TimeStem (3600000 # 1)) ".m4s"] "V9"
       [video_rep] [asset 3600 4] 0 0 None 0 0 0 [] [3600] 3600 [] 0) (40 # 1)
  = ([], Raise TypeError) /\
  forall n, requested_seg_nr (NumberStem n) (seg_duration (asset 3600 4))
              (get_timescale
                 (mkConfig ".m4s" "testpic" "V9"
                    [mkFileName (TimeStem (3600000 # 1)) ".m4s"] "V9"
                    [video_rep] [asset 3600 4] 0 0 None 0 0 0 [] [3600] 3600 [] 0))
            = Ok n.
Proof.
  apply (time_stem_needs_known_representation (provider_at (40 # 1))
           (mkConfig ".m4s" "testpic" "V9" [mkFileName (TimeStem (3600000 # 1)) ".m4s"]
              "V9" [video_rep] [asset 3600 4] 0 0 None 0 0 0 [] [3600] 3600 [] 0)
           (40 # 1) (asset 3600 4) [] (mkFileName (TimeStem (3600000 # 1)) ".m4s") []
           (3600000 # 1)).
  - reflexivity.
  - reflexivity.
  - reflexivity.
  - discriminate.
  - repeat constructor. discriminate.
Defined.

(** ** insert_asset_identifier *)

Lemma find_at_spec (c : ascii) (s : string) :
  forall (skip : nat) (pos : Z),
    (Str.find_at c s skip pos = -1 /\ Str.occurs c (Str.drop skip s) = false) \/
    (exists pre post,
       s = (pre ++ String c post)%string /\ (skip <= String.length pre)%nat /\
       Str.occurs c (Str.drop skip pre) = false /\
       Str.find_at c s skip pos = pos + Z.of_nat (String.length pre)).
Proof.
  induction s as [|a s IH]; intros skip pos.
  - left. destruct skip; split; reflexivity.
  - destruct skip as [|k].
    + cbn [Str.find_at]. destruct (Ascii.eqb_spec a c) as [->|Hne]; cbv iota.
      * right. exists EmptyString, s. simpl. repeat split; [lia | lia].
      * destruct (IH O (pos + 1)) as [[Hr Ho] | [pre [post [Hs [Hk [Ho Hr]]]]]].
        -- left. split; [exact Hr|].
           cbn [Str.drop Str.occurs]. apply Ascii.eqb_neq in Hne. rewrite Hne.
           destruct s; exact Ho.
        -- right. exists (String a pre), post.
           split; [simpl; rewrite <- Hs; reflexivity|]. split; [simpl; lia|].
           split.
           ++ cbn [Str.drop Str.occurs]. apply Ascii.eqb_neq in Hne. rewrite Hne.
              destruct pre; exact Ho.
           ++ rewrite Hr. cbn [String.length]. lia.
    + cbn [Str.find_at].
      destruct (IH k (pos + 1)) as [[Hr Ho] | [pre [post [Hs [Hk [Ho Hr]]]]]].
      * left. split; [exact Hr | exact Ho].
      * right. exists (String a pre), post.
        split; [simpl; rewrite <- Hs; reflexivity|]. split; [simpl; lia|].
        split; [exact Ho|]. rewrite Hr. cbn [String.length]. lia.
Qed.

Lemma take_app_char (pre post : string) (c : ascii) :
  Str.take (S (String.length pre)) (pre ++ String c post)
  = (pre ++ String c EmptyString)%string.
Proof. induction pre as [|a pre IH]; simpl; [reflexivity | rewrite <- IH; reflexivity]. Qed.

Lemma drop_app_char (pre post : string) (c : ascii) :
  Str.drop (S (String.length pre)) (pre ++ String c post) = post.
Proof.
  induction pre as [|a pre IH]; simpl; [destruct post; reflexivity | exact IH].
Qed.

Lemma append_assoc (a b c : string) : ((a ++ b) ++ c = a ++ (b ++ c))%string.
Proof. induction a as [|x a IH]; simpl; [reflexivity | rewrite IH; reflexivity]. Qed.

(** X20.  [insert_asset_identifier] puts the AssetIdentifier element right
    after the first ">" at or after the start position and keeps the rest of
    the text as it is; when there is no ">" from the start position on
    ([find] returns -1) the element is put in front of the whole text. *)
Theorem asset_identifier_follows_first_tag_end (response : string) (start : Z) :
  let from := Z.to_nat (Str.find_start (Z.of_nat (String.length response)) start) in
  (exists pre post,
     response = (pre ++ String ">" post)%string /\
     (from <= String.length pre)%nat /\
     Str.occurs ">" (Str.drop from pre) = false /\
     insert_asset_identifier response start
     = (pre ++ String ">" (ASSET_IDENTIFIER ++ post))%string)
  \/
  (Str.occurs ">" (Str.drop from response) = false /\
   insert_asset_identifier response start = (ASSET_IDENTIFIER ++ response)%string).
Proof.
  cbv zeta. unfold insert_asset_identifier, Str.find.
  set (from := Z.to_nat (Str.find_start (Z.of_nat (String.length response)) start)).
  destruct (find_at_spec ">" response from 0)
    as [[Hr Ho] | [pre [post [Hs [Hk [Ho Hr]]]]]].
  - right. split; [exact Ho|]. rewrite Hr. cbn [Z.add Z.to_nat].
    destruct response; reflexivity.
  - left. exists pre, post. split; [exact Hs|]. split; [exact Hk|].
    split; [exact Ho|]. rewrite Hr.
    replace (Z.to_nat (0 + Z.of_nat (String.length pre) + 1))
      with (S (String.length pre)) by lia.
    rewrite Hs at 1 2. rewrite take_app_char, drop_app_char, append_assoc.
    reflexivity.
Qed.

(** ** A manifest request from end to end *)




Example asset_identifier_examples :
  insert_asset_identifier "<Period id=p0><a/>" 0
  = ("<Period id=p0>" ++ ASSET_IDENTIFIER ++ "<a/>")%string /\
  insert_asset_identifier "<Period id=p0><a/>" 14
  = ("<Period id=p0><a/>" ++ ASSET_IDENTIFIER)%string /\
  insert_asset_identifier "<Period id=p0><a/>" (-1)
  = ("<Period id=p0><a/>" ++ ASSET_IDENTIFIER)%string /\
  insert_asset_identifier "no tag here" 0 = (ASSET_IDENTIFIER ++ "no tag here")%string /\
  insert_asset_identifier "<a>" 7 = (ASSET_IDENTIFIER ++ "<a>")%string.
Proof. repeat split. Qed.
